(** * MarketGuru: product identification and cross-platform search

    A shallow embedding of the parts of [backend/product_search.py],
    [backend/enhanced_detection.py] and [backend/app.py] that fuse the
    detector signals, query the retailers, deduplicate the listings and
    analyse the prices, with the properties proved about them.

    Conventions of the embedding.
    - Python [str] is [string]; the character functions below are those of
      Python on ASCII text (codes 0 to 127), other bytes are left alone by
      the case mappings and are neither word nor space characters.
    - Python [set] is [gset]; a loop over a set visits [elements] of it.
    - Python [float] values are the rationals they denote ([Q]) and the
      arithmetic on them is exact; there is no NaN and no infinity.  The
      module [Binary64] and the lemmas on it relate the comparisons with a
      threshold to IEEE 754 double precision.
    - An exception is a [Raised] result, or [None] where a function can
      raise only one.  What the functions print is left out. *)

From stdpp Require Import gmap strings list pretty.
From Stdlib Require Import QArith.
From Stdlib Require Import Ascii.
From Stdlib Require Import SpecFloat.

Local Open Scope Z_scope.
Local Open Scope nat_scope.

(** ** Python string primitives *)

Module Py.

Definition code (c : ascii) : N := N_of_ascii c.

Definition between (lo hi : N) (c : ascii) : bool :=
  ((lo <=? code c) && (code c <=? hi))%N.

Definition is_upper (c : ascii) : bool := between 65 90 c.
Definition is_lower (c : ascii) : bool := between 97 122 c.
Definition is_digit (c : ascii) : bool := between 48 57 c.

(** [\w] of the [re] module. *)
Definition is_word (c : ascii) : bool :=
  is_upper c || is_lower c || is_digit c || (code c =? 95)%N.

(** [\s] of the [re] module and [str.isspace]. *)
Definition is_space (c : ascii) : bool :=
  between 9 13 c || between 28 32 c.

Definition lower_char (c : ascii) : ascii :=
  if is_upper c then ascii_of_N (code c + 32) else c.

Definition upper_char (c : ascii) : ascii :=
  if is_lower c then ascii_of_N (code c - 32) else c.

Fixpoint map_chars (f : ascii → ascii) (s : string) : string :=
  match s with
  | EmptyString => EmptyString
  | String c s' => String (f c) (map_chars f s')
  end.

Fixpoint filter_chars (keep : ascii → bool) (s : string) : string :=
  match s with
  | EmptyString => EmptyString
  | String c s' =>
      if keep c then String c (filter_chars keep s') else filter_chars keep s'
  end.

Fixpoint all_chars (p : ascii → bool) (s : string) : bool :=
  match s with
  | EmptyString => true
  | String c s' => p c && all_chars p s'
  end.

(** [s.lower()] and [s.upper()]. *)
Definition lower : string → string := map_chars lower_char.
Definition upper : string → string := map_chars upper_char.

(** The maximal runs of characters that satisfy [keep], from left to
    right; [run] is the run being read. *)
Fixpoint runs_from (keep : ascii → bool) (run : string) (s : string)
    : list string :=
  match s with
  | EmptyString => if decide (run = "") then [] else [run]
  | String c s' =>
      if keep c then runs_from keep (run +:+ String c "") s'
      else (if decide (run = "") then [] else [run]) ++ runs_from keep "" s'
  end.
Definition runs (keep : ascii → bool) (s : string) : list string :=
  runs_from keep "" s.

(** [s.split()]: the runs of characters that are not white space. *)
Definition split (s : string) : list string :=
  runs (λ c, negb (is_space c)) s.

Fixpoint lstrip (s : string) : string :=
  match s with
  | EmptyString => EmptyString
  | String c s' => if is_space c then lstrip s' else s
  end.

(** [s.strip()]. *)
Definition strip (s : string) : string :=
  String.rev (lstrip (String.rev (lstrip s))).

(** [needle in hay]. *)
Fixpoint contains (needle hay : string) : bool :=
  String.prefix needle hay ||
  match hay with
  | EmptyString => false
  | String _ hay' => contains needle hay'
  end.

(** [s.title()]: a cased character is upper-cased when it follows an
    uncased one (or starts the string) and lower-cased otherwise. *)
Fixpoint title_from (previous_is_cased : bool) (s : string) : string :=
  match s with
  | EmptyString => EmptyString
  | String c s' =>
      if is_upper c || is_lower c
      then String (if previous_is_cased then lower_char c else upper_char c)
                  (title_from true s')
      else String c (title_from false s')
  end.
Definition title (s : string) : string := title_from false s.

(** [sep.join(parts)]. *)
Fixpoint join (sep : string) (parts : list string) : string :=
  match parts with
  | [] => ""
  | [p] => p
  | p :: rest => p +:+ sep +:+ join sep rest
  end.

(** [xs[:n]], also for a negative [n]. *)
Definition slice_to {A} (n : Z) (xs : list A) : list A :=
  if (0 <=? n)%Z then take (Z.to_nat n) xs
  else take (Z.to_nat (Z.of_nat (length xs) + n)) xs.

(** [a / b] on integers; [None] is [ZeroDivisionError]. *)
Definition truediv (a b : nat) : option Q :=
  match b with
  | O => None
  | S _ => Some (Z.of_nat a # Pos.of_nat b)
  end.

Definition hex_digit (n : N) : ascii :=
  if (n <? 10)%N then ascii_of_N (48 + n) else ascii_of_N (55 + n).

(** [urllib.parse.quote_plus] on one character and on a string. *)
Definition quote_plus_char (c : ascii) : string :=
  if is_upper c || is_lower c || is_digit c
     || bool_decide (c ∈ ["_"; "."; "-"; "~"]%char)
  then String c ""
  else if bool_decide (c = " "%char) then "+"
  else String "%" (String (hex_digit (code c / 16))
                     (String (hex_digit (code c mod 16)) "")).

Fixpoint quote_plus (s : string) : string :=
  match s with
  | EmptyString => EmptyString
  | String c s' => quote_plus_char c +:+ quote_plus s'
  end.

(** [x < y] on floats. *)
Definition Qltb (x y : Q) : bool := negb (Qle_bool y x).

End Py.

Global Instance Qlt_decision (x y : Q) : Decision (x < y)%Q.
Proof.
  destruct (Qlt_le_dec x y) as [Hlt|Hle]; [by left | right].
  by apply Qle_not_lt.
Defined.

(** ** Listings and their deduplication ([ProductSearchEngine]) *)

(** The dictionary an adapter appends for one product.  The link is [None]
    when Selenium finds no [href]. *)
Record Listing := {
  title : string;
  price : string;
  image_url : string;
  product_link : option string;
  rating : string;
  reviews : string;
  retailer : string
}.

(** [re.sub(r'[^\w\s]', '', product['title'].lower())] *)
Definition normalized_title (product : Listing) : string :=
  Py.filter_chars (λ c, Py.is_word c || Py.is_space c) (Py.lower (title product)).

(** [set(normalized_title.split())] *)
Definition words_of (normalized : string) : gset string :=
  list_to_set (Py.split normalized).

Definition title_words (product : Listing) : gset string :=
  words_of (normalized_title product).

(** The inner loop of [remove_duplicates]: [is_duplicate] after the loop over
    [seen_titles], which stops at the first title that is similar enough. *)
Fixpoint any_similar (title_words : gset string) (seen_titles : list string)
    : option bool :=
  match seen_titles with
  | [] => Some false
  | seen_title :: rest =>
      let seen_words := words_of seen_title in
      ratio ← Py.truediv (size (title_words ∩ seen_words))
                         (max (size title_words) 1);
      if Py.Qltb (6 # 10) ratio then Some true
      else any_similar title_words rest
  end.

(** The outer loop, on the pair [(unique_products, seen_titles)]. *)
Fixpoint remove_duplicates_loop (products : list Listing)
    (st : list Listing * gset string) : option (list Listing * gset string) :=
  match products with
  | [] => Some st
  | product :: rest =>
      let '(unique_products, seen_titles) := st in
      let normalized := normalized_title product in
      is_duplicate ← any_similar (words_of normalized) (elements seen_titles);
      if is_duplicate : bool then remove_duplicates_loop rest st
      else remove_duplicates_loop rest
             (unique_products ++ [product], {[normalized]} ∪ seen_titles)
  end.

Definition remove_duplicates (products : list Listing) : option (list Listing) :=
  fst <$> remove_duplicates_loop products ([], ∅).

(** The quantity the loop compares with 0.6, for a later listing and an
    earlier one. *)
Definition overlap_ratio (later earlier : Listing) : Q :=
  Z.of_nat (size (title_words later ∩ title_words earlier))
  # Pos.of_nat (max (size (title_words later)) 1).

Definition duplicate_of (later earlier : Listing) : bool :=
  Py.Qltb (6 # 10) (overlap_ratio later earlier).

(** One round of the outer loop, on the kept listings alone. *)
Definition keep_unless_duplicate (kept : list Listing) (product : Listing)
    : list Listing :=
  if existsb (duplicate_of product) kept then kept else kept ++ [product].

(** [seen_titles] when [unique_products] is [kept]. *)
Definition seen_of (kept : list Listing) : gset string :=
  list_to_set (normalized_title <$> kept).

(** ** The outside world

    What the program cannot decide: the answer of a web site and the time it
    takes.  Times are in milliseconds. *)

(** What a call comes to: a value, or an exception of class [Exception]. *)
Inductive outcome (A : Type) : Type :=
  | Returned (a : A)
  | Raised (exception : string).
Arguments Returned {A} a.
Arguments Raised {A} exception.

Record Timed (A : Type) := { elapsed : N; result : A }.
Arguments elapsed {A} _.
Arguments result {A} _.

(** A [bs4] tag that the adapters read: its text nodes and its attributes. *)
Record Tag := { strings : list string; attrs : gmap string string }.

(** [tag.get_text()] and [tag.get_text(strip=True)]. *)
Definition get_text (tag : Tag) : string := Py.join "" (strings tag).
Definition get_text_strip (tag : Tag) : string :=
  Py.join "" (filter (λ piece, piece ≠ "") (Py.strip <$> strings tag)).

(** A result container of a parsed page, by the queries the adapters make:
    [select_one(selector)] and [find(name, class_=...)]. *)
Record Soup := {
  select_one : string → option Tag;
  find : string → option string → option Tag
}.

(** A parsed page: [find_all(name, {attribute: value})]. *)
Record Page := { find_all : string → string → string → list Soup }.

(** A Selenium element; [find_element] raises when nothing matches, which
    is [None] here. *)
Record WebTag := { text : string; attributes : gmap string string }.
Record WebElement := { find_element : string → option WebTag }.
Record Rendered := { find_elements : string → outcome (list WebElement) }.
Record Driver := {
  get : string → Timed (outcome Rendered);
  quit : outcome unit
}.

Record Web := {
  (** [requests.get(url, headers=..., timeout=10)] and the parse of its
      content *)
  http_get : string → Timed (outcome Page);
  (** [webdriver.Chrome(ChromeDriverManager().install(), options=...)] *)
  chrome : Timed (outcome Driver)
}.

(** The state a run goes through: the clock, and the requests sent so far
    with the time each was sent at. *)
Record World := { now : N; requests : list (N * string) }.

Definition Run (A : Type) : Type := World → outcome A * World.

Global Instance run_ret : MRet Run := λ A a w, (Returned a, w).
Global Instance run_bind : MBind Run := λ A B f m w,
  match m w with
  | (Returned a, w') => f a w'
  | (Raised e, w') => (Raised e, w')
  end.

(** [try: body except Exception as e: handler] *)
Definition try_except {A} (body : Run A) (handler : string → Run A) : Run A :=
  λ w, match body w with
       | (Raised e, w') => handler e w'
       | done => done
       end.

Definition pass (ms : N) (w : World) : World :=
  {| now := (now w + ms)%N; requests := requests w |}.

Definition sent (url : string) (w : World) : World :=
  {| now := now w; requests := requests w ++ [(now w, url)] |}.

Definition requests_get (web : Web) (url : string) : Run Page :=
  λ w, let response := http_get web url in
       (result response, pass (elapsed response) (sent url w)).

(** [time.sleep(seconds)] *)
Definition sleep (seconds : N) : Run unit :=
  λ w, (Returned (), pass (seconds * 1000)%N w).

Definition driver_get (driver : Driver) (url : string) : Run Rendered :=
  λ w, let response := get driver url in
       (result response, pass (elapsed response) (sent url w)).

Definition raise_if_none {A} (exception : string) (o : option A) : Run A :=
  λ w, (from_option Returned (Raised exception) o, w).

Definition of_outcome {A} (o : outcome A) : Run A := λ w, (o, w).

(** ** The retailer adapters ([ProductSearchEngine]) *)

(** [setup_driver]: the driver, or [None] when Chrome does not start. *)
Definition setup_driver (web : Web) : Run (option Driver) :=
  λ w, let started := chrome web in
       (Returned match result started with
                 | Returned driver => Some driver
                 | Raised _ => None
                 end,
        pass (elapsed started) w).

(** The loops [for selector in selectors: elem = result.select_one(selector);
    if elem: ...; break]. *)
Fixpoint first_selected (result : Soup) (selectors : list string) : option Tag :=
  match selectors with
  | [] => None
  | selector :: rest =>
      match select_one result selector with
      | Some elem => Some elem
      | None => first_selected result rest
      end
  end.

Definition truthy (s : option string) : bool :=
  match s with
  | Some s => bool_decide (s ≠ "")
  | None => false
  end.

(** [a or b] on strings that may be [None]. *)
Definition or_else (a b : option string) : option string :=
  if truthy a then a else b.

Module Amazon.

Definition title_selectors : list string :=
  [ "span.a-size-medium.a-color-base.a-text-normal";
    "span.a-size-base-plus.a-color-base.a-text-normal";
    "h2.a-size-mini span";
    "h2 span.a-color-base";
    "[data-cy=" +:+ String "034" "title-recipe-label" +:+ String "034" "]";
    "h2 a span" ].

Definition price_selectors : list string :=
  [ "span.a-price-whole"; "span.a-offscreen"; ".a-price .a-offscreen";
    ".a-price-range .a-offscreen" ].

Definition link_selectors : list string :=
  [ "h2 a"; "a.a-link-normal"; ".s-link-style a" ].

Definition title_of (result : Soup) : string :=
  from_option get_text_strip "N/A" (first_selected result title_selectors).

Definition price_of (result : Soup) : string :=
  from_option get_text_strip "N/A" (first_selected result price_selectors).

Definition image_url_of (result : Soup) : string :=
  match find result "img" None with
  | Some img_elem =>
      default "" (or_else (or_else (attrs img_elem !! "src")
                                   (attrs img_elem !! "data-src"))
                          (Some ""))
  | None => ""
  end.

Fixpoint product_link_from (result : Soup) (selectors : list string) : string :=
  match selectors with
  | [] => ""
  | selector :: rest =>
      match select_one result selector
            ≫= (λ link_elem, attrs link_elem !! "href") with
      | Some href =>
          if bool_decide (href = "") then product_link_from result rest
          else if String.prefix "/" href
               then "https://www.amazon.in" +:+ href else href
      | None => product_link_from result rest
      end
  end.

(** [rating_text.split()[0]] raises [IndexError] on a text of white space
    only. *)
Definition rating_of (result : Soup) : outcome string :=
  match find result "span" (Some "a-icon-alt") with
  | Some rating_elem =>
      let rating_text := get_text rating_elem in
      if bool_decide (rating_text = "") then Returned "N/A"
      else match Py.split rating_text with
           | first :: _ => Returned first
           | [] => Raised "IndexError"
           end
  | None => Returned "N/A"
  end.

Definition reviews_of (result : Soup) : string :=
  from_option get_text "N/A" (find result "span" (Some "a-size-base")).

(** The body of the [try] in the loop over the results: the product to
    append, if any. *)
Definition product_of (result : Soup) : outcome (option Listing) :=
  let title' := title_of result in
  let price' := price_of result in
  let image_url' := image_url_of result in
  let product_link' := product_link_from result link_selectors in
  match rating_of result with
  | Raised e => Raised e
  | Returned rating' =>
      let reviews' := reviews_of result in
      Returned
        (if bool_decide (title' ≠ "N/A") || bool_decide (image_url' ≠ "")
         then Some {| title := if bool_decide (title' ≠ "N/A") then title'
                               else "Amazon Product";
                      price := price';
                      image_url := image_url';
                      product_link := Some product_link';
                      rating := rating';
                      reviews := reviews';
                      retailer := "Amazon India" |}
         else None)
  end.

End Amazon.

(** [products] after [for result in results: try: ... except: continue]. *)
Definition collect {A} (product_of : A → outcome (option Listing))
    (results : list A) : list Listing :=
  omap (λ result, match product_of result with
                  | Returned appended => appended
                  | Raised _ => None
                  end) results.

(** The [try] block of [search_amazon_products] and the function itself. *)
Definition amazon_attempt (web : Web) (product_name : string) (max_results : Z)
    : Run (list Listing) :=
  let query := Py.quote_plus product_name in
  let url := "https://www.amazon.in/s?k=" +:+ query in
  soup ← requests_get web url;
  let search_results :=
    find_all soup "div" "data-component-type" "s-search-result" in
  mret (collect Amazon.product_of (Py.slice_to max_results search_results)).

Definition search_amazon_products (web : Web) (product_name : string)
    (max_results : Z) : Run (list Listing) :=
  try_except (amazon_attempt web product_name max_results) (λ _, mret []).

Module Flipkart.

(** [a or b] on tags that may be [None]. *)
Definition or_tag (a b : option Tag) : option Tag :=
  match a with
  | Some _ => a
  | None => b
  end.

Definition title_of (container : Soup) : string :=
  let title_elem := or_tag (find container "div" (Some "_4rR01T"))
                           (find container "a" (Some "s1Q9rs")) in
  from_option get_text_strip "N/A" title_elem.

Definition price_of (container : Soup) : string :=
  let price_elem := or_tag (find container "div" (Some "_30jeq3"))
                           (find container "div" (Some "_25b18c")) in
  from_option get_text_strip "N/A" price_elem.

(** [img_elem.get('src') if img_elem else ""]: [None] when the image has no
    [src]. *)
Definition image_url_of (container : Soup) : option string :=
  match find container "img" (Some "_396cs4") with
  | Some img_elem => attrs img_elem !! "src"
  | None => Some ""
  end.

(** An absent [href] is formatted as [None] by the f-string. *)
Definition product_link_of (container : Soup) : string :=
  let link_elem := or_tag (find container "a" (Some "_1fQZEK"))
                          (find container "a" (Some "s1Q9rs")) in
  match link_elem with
  | Some link_elem =>
      "https://www.flipkart.com" +:+ default "None" (attrs link_elem !! "href")
  | None => ""
  end.

Definition rating_of (container : Soup) : string :=
  from_option get_text "N/A" (find container "div" (Some "_3LWZlK")).

Definition product_of (container : Soup) : outcome (option Listing) :=
  let title' := title_of container in
  let price' := price_of container in
  let image_url' := image_url_of container in
  let product_link' := product_link_of container in
  let rating' := rating_of container in
  Returned
    (if bool_decide (title' ≠ "N/A") && truthy image_url'
     then Some {| title := title';
                  price := price';
                  image_url := default "" image_url';
                  product_link := Some product_link';
                  rating := rating';
                  reviews := "N/A";
                  retailer := "Flipkart" |}
     else None).

End Flipkart.

(** [xs or ys] on lists. *)
Definition or_list {A} (xs ys : list A) : list A :=
  match xs with
  | [] => ys
  | _ => xs
  end.

Definition flipkart_attempt (web : Web) (product_name : string) (max_results : Z)
    : Run (list Listing) :=
  let query := Py.quote_plus product_name in
  let url := "https://www.flipkart.com/search?q=" +:+ query in
  soup ← requests_get web url;
  let product_containers :=
    or_list (find_all soup "div" "class" "_1AtVbE")
            (find_all soup "div" "class" "_13oc-S") in
  mret (collect Flipkart.product_of (Py.slice_to max_results product_containers)).

Definition search_flipkart_products (web : Web) (product_name : string)
    (max_results : Z) : Run (list Listing) :=
  try_except (flipkart_attempt web product_name max_results) (λ _, mret []).

Module Google.

(** [element.find_element(By.CSS_SELECTOR, selector)] *)
Definition find_or_raise (element : WebElement) (selector : string)
    : outcome WebTag :=
  match find_element element selector with
  | Some found => Returned found
  | None => Raised "NoSuchElementException"
  end.

Definition product_of (element : WebElement) : outcome (option Listing) :=
  match find_or_raise element ".Xjkr3b" with
  | Raised e => Raised e
  | Returned title_elem =>
      let title' := text title_elem in
      match find_or_raise element ".a8Pemb" with
      | Raised e => Raised e
      | Returned price_elem =>
          let price' := text price_elem in
          match find_or_raise element ".ArOc1c img" with
          | Raised e => Raised e
          | Returned img_elem =>
              let image_url' := attributes img_elem !! "src" in
              match find_or_raise element "a" with
              | Raised e => Raised e
              | Returned link_elem =>
                  let product_link' := attributes link_elem !! "href" in
                  Returned
                    (if bool_decide (title' ≠ "N/A") && truthy image_url'
                     then Some {| title := title';
                                  price := price';
                                  image_url := default "" image_url';
                                  product_link := product_link';
                                  rating := "N/A";
                                  reviews := "N/A";
                                  retailer := "Google Shopping" |}
                     else None)
              end
          end
      end
  end.

End Google.

Definition google_attempt (web : Web) (product_name : string) (max_results : Z)
    : Run (list Listing) :=
  driver ← setup_driver web;
  match driver with
  | None => mret []
  | Some driver =>
      let query := Py.quote_plus product_name in
      let url := "https://www.google.com/search?q=" +:+ query +:+ "&tbm=shop" in
      page ← driver_get driver url;
      _ ← sleep 3;
      product_elements ← of_outcome (find_elements page ".sh-dgr__content");
      let products :=
        collect Google.product_of (Py.slice_to max_results product_elements) in
      _ ← of_outcome (quit driver);
      mret products
  end.

Definition search_google_shopping (web : Web) (product_name : string)
    (max_results : Z) : Run (list Listing) :=
  try_except (google_attempt web product_name max_results) (λ _, mret []).

(** ** The aggregator *)

(** [None] of a function that divides is its [ZeroDivisionError]. *)
Definition of_division {A} (o : option A) : Run A :=
  raise_if_none "ZeroDivisionError" o.

Definition search_all_platforms (web : Web) (product_name : string)
    (max_results_per_platform : Z) : Run (list Listing) :=
  let all_products := [] in
  amazon_products ←
    search_amazon_products web product_name max_results_per_platform;
  let all_products := all_products ++ amazon_products in
  flipkart_products ←
    search_flipkart_products web product_name max_results_per_platform;
  let all_products := all_products ++ flipkart_products in
  google_products ←
    search_google_shopping web product_name max_results_per_platform;
  let all_products := all_products ++ google_products in
  unique_products ← of_division (remove_duplicates all_products);
  mret unique_products.

(** What an attempt adds to [all_products]: its listings, or nothing when it
    raised. *)
Definition contribution (attempt : outcome (list Listing)) : list Listing :=
  match attempt with
  | Returned products => products
  | Raised _ => []
  end.

(** The addresses the adapters request. *)
Definition amazon_url (product_name : string) : string :=
  "https://www.amazon.in/s?k=" +:+ Py.quote_plus product_name.
Definition flipkart_url (product_name : string) : string :=
  "https://www.flipkart.com/search?q=" +:+ Py.quote_plus product_name.
Definition google_url (product_name : string) : string :=
  "https://www.google.com/search?q=" +:+ Py.quote_plus product_name +:+ "&tbm=shop".

(** The time [search_google_shopping] takes and the request it sends: none
    when Chrome does not start, and no sleep when the page does not load. *)
Definition google_elapsed (web : Web) (product_name : string) : N :=
  (elapsed (chrome web) +
  match result (chrome web) with
  | Returned driver =>
      let response := get driver (google_url product_name) in
      elapsed response +
      match result response with
      | Returned _ => 3 * 1000
      | Raised _ => 0
      end
  | Raised _ => 0
  end)%N.

Definition google_requests (web : Web) (product_name : string) (start : N)
    : list (N * string) :=
  match result (chrome web) with
  | Returned _ => [((start + elapsed (chrome web))%N, google_url product_name)]
  | Raised _ => []
  end.

(** Dispatch in parallel, as a property of a run that starts at [w]: every
    request the search sends is sent at the time the search is called. *)
Definition dispatched_together (web : Web) (product_name : string) (n : Z)
    (w : World) : Prop :=
  ∀ t url, (t, url) ∈ drop (length (requests w))
                          (requests (search_all_platforms web product_name n w).2) →
           t = now w.

(** ** The price analysis of [/api/price] ([app.py]) *)

Module App.

(** What [scrape_amazon_india] and [scrape_flipkart] return; [price] is
    [None] when no price was found or parsed. *)
Record PriceData := {
  retailer : string;
  title : string;
  price : option Q;
  currency : option string;
  error : option string
}.

Record PriceRange := { min : Q; max : Q }.

Record Analysis := {
  best_price : Q;
  best_retailer : string;
  price_range : PriceRange;
  savings : Q
}.

(** [min(xs)] and [max(xs)]: the first item that no later item is strictly
    below (above); [ValueError] on an empty list. *)
Definition py_min (xs : list Q) : outcome Q :=
  match xs with
  | [] => Raised "ValueError"
  | first :: rest =>
      Returned (fold_left (λ best item, if Py.Qltb item best then item else best)
                          rest first)
  end.

Definition py_max (xs : list Q) : outcome Q :=
  match xs with
  | [] => Raised "ValueError"
  | first :: rest =>
      Returned (fold_left (λ best item, if Py.Qltb best item then item else best)
                          rest first)
  end.

(** [next(d['retailer'] for d in valid_prices if d['price'] == min_price)];
    [StopIteration] when no price is equal to [min_price]. *)
Fixpoint first_retailer_at (min_price : Q) (valid_prices : list (PriceData * Q))
    : outcome string :=
  match valid_prices with
  | [] => Raised "StopIteration"
  | (d, p) :: rest =>
      if Qeq_bool p min_price then Returned (retailer d)
      else first_retailer_at min_price rest
  end.

(** [[d for d in price_data if d['price'] is not None]], each with its
    price. *)
Definition valid_prices_of (price_data : list PriceData) : list (PriceData * Q) :=
  omap (λ d, p ← price d; Some (d, p)) price_data.

(** The block under [# Calculate price analysis]; [None] is the empty
    dictionary. *)
Definition price_analysis (price_data : list PriceData) : outcome (option Analysis) :=
  let valid_prices := valid_prices_of price_data in
  if bool_decide (2 ≤ length valid_prices) then
    let prices_only := snd <$> valid_prices in
    match py_min prices_only with
    | Raised e => Raised e
    | Returned min_price =>
        match py_max prices_only with
        | Raised e => Raised e
        | Returned max_price =>
            match first_retailer_at min_price valid_prices with
            | Raised e => Raised e
            | Returned best_retailer' =>
                Returned (Some
                  {| best_price := min_price;
                     best_retailer := best_retailer';
                     price_range := {| min := min_price; max := max_price |};
                     savings := if Py.Qltb min_price max_price
                                then (max_price - min_price)%Q else 0%Q |})
            end
        end
    end
  else Returned None.

End App.

(** ** Signal fusion ([EnhancedProductDetector]) *)

(** A record of the detector; [.get('name', '')] and [.get('confidence', 0)]
    read the fields, which may be missing. *)
Record Detection := {
  det_name : option string;
  det_confidence : option Q
}.

(** An identified product. *)
Record Product := {
  name : string;
  confidence : Q;
  category : string;
  detection_method : string
}.

(** [self.product_categories], in the order of the dictionary. *)
Definition product_categories : list (string * list string) :=
  [ ("electronics", ["phone"; "smartphone"; "laptop"; "computer"; "tablet";
                     "camera"; "headphones"; "speaker"; "watch"; "smartwatch";
                     "tv"; "monitor"]);
    ("clothing", ["shirt"; "t-shirt"; "dress"; "pants"; "jeans"; "jacket";
                  "coat"; "shoes"; "sneakers"; "boots"; "hat"; "cap"]);
    ("home", ["chair"; "table"; "sofa"; "bed"; "lamp"; "cushion"; "pillow";
              "curtain"; "rug"; "vase"; "clock"]);
    ("kitchen", ["bottle"; "cup"; "mug"; "plate"; "bowl"; "spoon"; "fork";
                 "knife"; "pot"; "pan"]);
    ("sports", ["ball"; "football"; "basketball"; "tennis"; "racket"; "bike";
                "bicycle"; "weights"; "dumbbells"]);
    ("books", ["book"; "notebook"; "journal"; "magazine"; "newspaper"]);
    ("toys", ["toy"; "doll"; "car"; "truck"; "puzzle"; "game"]);
    ("beauty", ["perfume"; "lipstick"; "makeup"; "brush"; "mirror"; "cream";
                "lotion"]) ].

Definition known_brands : list string :=
  [ "apple"; "samsung"; "sony"; "lg"; "nike"; "adidas"; "canon"; "nikon";
    "hp"; "dell"; "lenovo"; "asus"; "acer"; "microsoft"; "google"; "amazon";
    "xiaomi"; "oppo"; "vivo"; "oneplus"; "huawei"; "realme"; "nokia" ].

(** [[A-Z0-9]] *)
Definition is_upper_or_digit (c : ascii) : bool := Py.is_upper c || Py.is_digit c.

(** [categorize_product] *)
Definition categorize_product (product_name : string) : string :=
  let product_name := Py.lower product_name in
  let hit '(category, keywords) :=
    existsb (λ keyword, Py.contains keyword product_name) keywords in
  match List.find hit product_categories with
  | Some (category, _) => category
  | None => "general"
  end.

(** [re.match(r'^[A-Z0-9]{2,}$', word) and len(word) <= 10], on a word
    without white space. *)
Definition looks_like_identifier (word : string) : bool :=
  Py.all_chars is_upper_or_digit word
  && bool_decide (2 ≤ String.length word)
  && bool_decide (String.length word ≤ 10).

(** [enhance_product_name] *)
Definition enhance_product_name (base_name : string) (extracted_texts : list string)
    : string :=
  let add enhanced_name word :=
    if looks_like_identifier word
       && negb (Py.contains (Py.lower word) (Py.lower enhanced_name))
    then enhanced_name +:+ " " +:+ word
    else enhanced_name in
  Py.strip (fold_left add (extracted_texts ≫= Py.split) base_name).

(** [extract_products_from_caption]; the order of [list(set(products))] is
    the one in which the set is visited. *)
Definition extract_products_from_caption (caption : string) : list string :=
  let caption_words := Py.split (Py.lower caption) in
  let products :=
    '(_, keywords) ← product_categories;
    filter (λ keyword, keyword ∈ caption_words) keywords in
  elements (list_to_set products : gset string).

Record BrandInfo := { brand : string; model : string }.

(** [re.search(r'\b[A-Z0-9]{3,10}\b', text)]: the first maximal run of word
    characters that has 3 to 10 characters, all of them in [A-Z0-9]. *)
Definition search_model (text : string) : option string :=
  List.find (λ word, Py.all_chars is_upper_or_digit word
                     && bool_decide (3 ≤ String.length word)
                     && bool_decide (String.length word ≤ 10))
            (Py.runs Py.is_word text).

(** One round of the loop of [extract_brand_info] over the texts. *)
Definition brand_info_step (brand_info : BrandInfo) (text : string) : BrandInfo :=
  let text_lower := Py.lower text in
  let brand' :=
    match List.find (λ known, Py.contains known text_lower) known_brands with
    | Some known => Py.title known
    | None => brand brand_info
    end in
  let model_match := search_model (Py.upper text) in
  let model' :=
    match model_match with
    | Some matched =>
        if bool_decide (model brand_info = "") then matched else model brand_info
    | None => model brand_info
    end in
  {| brand := brand'; model := model' |}.

Definition extract_brand_info (extracted_texts : list string) : BrandInfo :=
  fold_left brand_info_step extracted_texts {| brand := ""; model := "" |}.

(** The first loop of [combine_detection_results], on the pair
    [(identified_products, seen_products)]. *)
Definition yolo_step (extracted_texts : list string)
    (st : list Product * gset string) (detection : Detection)
    : list Product * gset string :=
  let '(identified_products, seen_products) := st in
  let product_name := Py.lower (default "" (det_name detection)) in
  let confidence' := default 0%Q (det_confidence detection) in
  if Py.Qltb (3 # 10) confidence' && bool_decide (product_name ∉ seen_products)
  then (identified_products ++
          [ {| name := enhance_product_name product_name extracted_texts;
               confidence := confidence';
               category := categorize_product product_name;
               detection_method := "YOLO" |} ],
        {[product_name]} ∪ seen_products)
  else st.

(** The second loop, over the products of the caption. *)
Definition caption_step (extracted_texts : list string)
    (st : list Product * gset string) (product : string)
    : list Product * gset string :=
  let '(identified_products, seen_products) := st in
  if bool_decide (Py.lower product ∉ seen_products)
  then (identified_products ++
          [ {| name := enhance_product_name product extracted_texts;
               confidence := 7 # 10;
               category := categorize_product product;
               detection_method := "Image Caption" |} ],
        {[Py.lower product]} ∪ seen_products)
  else st.

(** The body of the last loop: the brand goes before the name and the model
    after it, each when it is not empty. *)
Definition with_brand_info (brand_info : BrandInfo) (product : Product) : Product :=
  let name1 :=
    if bool_decide (brand brand_info ≠ "")
    then brand brand_info +:+ " " +:+ name product else name product in
  let name2 :=
    if bool_decide (model brand_info ≠ "")
    then name1 +:+ " " +:+ model brand_info else name1 in
  {| name := name2;
     confidence := confidence product;
     category := category product;
     detection_method := detection_method product |}.

Definition combine_detection_results (yolo_detections : list Detection)
    (caption : string) (extracted_texts : list string) : list Product :=
  let st := fold_left (yolo_step extracted_texts) yolo_detections ([], ∅) in
  let st :=
    if bool_decide (caption ≠ "")
    then fold_left (caption_step extracted_texts)
                   (extract_products_from_caption caption) st
    else st in
  let brand_info := extract_brand_info extracted_texts in
  with_brand_info brand_info <$> st.1.

(** What the first loop of [combine_detection_results] reads of a detection,
    and what it appends for it. *)
Definition label_of (detection : Detection) : string :=
  Py.lower (default "" (det_name detection)).

Definition confidence_of (detection : Detection) : Q :=
  default 0%Q (det_confidence detection).

Definition yolo_product (extracted_texts : list string) (detection : Detection)
    : Product :=
  {| name := enhance_product_name (label_of detection) extracted_texts;
     confidence := confidence_of detection;
     category := categorize_product (label_of detection);
     detection_method := "YOLO" |}.

(** The labels of the detections above the threshold. *)
Definition seen_labels (detections : list Detection) : gset string :=
  list_to_set (label_of <$> filter (λ d, Py.Qltb (3 # 10) (confidence_of d) = true)
                                   detections).

Definition from_yolo (product : Product) : Prop :=
  detection_method product = "YOLO".

Global Instance from_yolo_dec (product : Product) : Decision (from_yolo product).
Proof. unfold from_yolo. apply _. Defined.

(** One entry of [enhanced_results]. *)
Record EnhancedResult := {
  detected_name : string;
  result_confidence : Q;
  result_category : string;
  result_method : string;
  search_results : list Listing;
  total_found : nat
}.

(** [generate_analysis_summary] *)
Definition generate_analysis_summary (enhanced_results : list EnhancedResult)
    : string :=
  match enhanced_results with
  | [] => "No products detected in the image."
  | _ =>
      let total_products := length enhanced_results in
      let total_search_results := foldr plus 0 (total_found <$> enhanced_results) in
      let product_names := detected_name <$> enhanced_results in
      let summary :=
        "Detected " +:+ pretty total_products +:+ " product(s): "
        +:+ Py.join ", " product_names +:+ ". " in
      summary +:+ "Found " +:+ pretty total_search_results
      +:+ " online shopping results across multiple platforms."
  end.

(** What the three models return for an image; each of them returns its
    empty value when it fails. *)
Record Signals := {
  yolo_detections : list Detection;
  image_caption : string;
  extracted_text : list string
}.

(** The dictionary [analyze_and_identify_products] returns; the one of the
    [except] branch has an [error] and no summary. *)
Record Report := {
  report_signals : Signals;
  identified_products : list EnhancedResult;
  analysis_summary : option string;
  report_error : option string
}.

(** [for product in identified_products: ...], in order. *)
Fixpoint search_each (web : Web) (identified : list Product)
    : Run (list EnhancedResult) :=
  match identified with
  | [] => mret []
  | product :: rest =>
      found ← search_all_platforms web (name product) 2;
      let entry := {| detected_name := name product;
                      result_confidence := confidence product;
                      result_category := category product;
                      result_method := detection_method product;
                      search_results := found;
                      total_found := length found |} in
      entries ← search_each web rest;
      mret (entry :: entries)
  end.

Definition analyze_and_identify_products (web : Web) (signals : Signals)
    : Run Report :=
  try_except
    (let identified :=
       combine_detection_results (yolo_detections signals)
         (image_caption signals) (extracted_text signals) in
     enhanced_results ← search_each web identified;
     mret {| report_signals := signals;
             identified_products := enhanced_results;
             analysis_summary := Some (generate_analysis_summary enhanced_results);
             report_error := None |})
    (λ e, mret {| report_signals :=
                    {| yolo_detections := []; image_caption := "";
                       extracted_text := [] |};
                  identified_products := [];
                  analysis_summary := None;
                  report_error := Some e |}).

(** ** The other functions of the three files *)

(** [filter_by_specs] ([app.py]); a dictionary with keys is true, so
    [not data] is false. *)
Definition spec_missing (spec : option string) (lower_title : string) : bool :=
  match spec with
  | Some s => bool_decide (s ≠ "") && negb (Py.contains (Py.lower s) lower_title)
  | None => false
  end.

Definition matches_specs (storage color : option string) (data : App.PriceData)
    : bool :=
  match App.price data with
  | None => false
  | Some _ =>
      let lower_title := Py.lower (App.title data) in
      negb (spec_missing storage lower_title)
      && negb (spec_missing color lower_title)
  end.

Definition filter_by_specs (data_list : list App.PriceData)
    (storage color : option string) : list App.PriceData :=
  List.filter (matches_specs storage color) data_list.

(** What [api_price] answers once the prices are scraped, without the
    formatted prices: that nothing matches the specifications, or the
    analysis with the scraped data. *)
Inductive PriceReply : Type :=
  | NoMatch (message : string) (raw_data : list App.PriceData)
  | Compared (analysis : option App.Analysis) (product_details : list App.PriceData).

(** The part of [api_price] from [# Filter by specifications if provided]
    on; storing the document changes nothing of the answer. *)
Definition price_reply (price_data : list App.PriceData)
    (storage color : option string) : outcome PriceReply :=
  let analysed :=
    match App.price_analysis price_data with
    | Raised e => Raised e
    | Returned analysis => Returned (Compared analysis price_data)
    end in
  if truthy storage || truthy color then
    match filter_by_specs price_data storage color with
    | [] =>
        Returned (NoMatch
          (Py.strip ("No products found matching specifications: "
                     +:+ default "" (or_else storage (Some "")) +:+ " "
                     +:+ default "" (or_else color (Some ""))))
          price_data)
    | _ => analysed
    end
  else analysed.

(** A product page, by the queries [get_product_details_from_url] makes:
    [find(name, {attribute: value})] and [find_all(name, class_=...)]. *)
Record Document := {
  doc_find : string → string → string → option Tag;
  doc_find_all : string → string → list Tag
}.

Record Details := {
  description : string;
  specifications : gmap string string;
  additional_images : list string
}.

(** The loop over the first five images: an address is appended when it is
    not empty and not there yet. *)
Definition add_image (images : list string) (img : Tag) : list string :=
  match attrs img !! "src" with
  | Some img_url =>
      if bool_decide (img_url ≠ "") && bool_decide (img_url ∉ images)
      then images ++ [img_url] else images
  | None => images
  end.

(** [get_product_details_from_url], on the answer [fetched] of
    [requests.get(url, ...)]; [None] is the empty dictionary of the [except]
    branch. *)
Definition get_product_details_from_url (fetched : outcome Document)
    (url : string) : option Details :=
  match fetched with
  | Raised _ => None
  | Returned soup =>
      if Py.contains "amazon" url then
        let desc_elem := doc_find soup "div" "id" "feature-bullets" in
        let img_elements := doc_find_all soup "img" "a-dynamic-image" in
        Some {| description := from_option get_text_strip "" desc_elem;
                specifications := ∅;
                additional_images :=
                  fold_left add_image (Py.slice_to 5 img_elements) [] |}
      else if Py.contains "flipkart" url then
        let desc_elem := doc_find soup "div" "class" "_1mXcCf" in
        Some {| description := from_option get_text_strip "" desc_elem;
                specifications := ∅;
                additional_images := [] |}
      else Some {| description := ""; specifications := ∅;
                   additional_images := [] |}
  end.

(** What [search_uploaded_image] returns: the direct search for a query,
    the analysis of the image, or the dictionary of the [except] branch. *)
Inductive Uploaded : Type :=
  | DirectSearch (search_query : string) (found : list Listing)
                 (total : nat) (summary : string)
  | Analysed (report : Report)
  | Failed (error : string).

Definition search_uploaded_image (web : Web) (signals : Signals)
    (search_query : option string) : Run Uploaded :=
  try_except
    (if truthy search_query then
       let query := default "" search_query in
       found ← search_all_platforms web query 3;
       mret (DirectSearch query found (length found)
               ("Found " +:+ pretty (length found) +:+ " results for '"
                +:+ query +:+ "'"))
     else
       report ← analyze_and_identify_products web signals;
       mret (Analysed report))
    (λ e, mret (Failed e)).

(** The product the second loop of [combine_detection_results] appends for a
    word of the caption. *)
Definition caption_product (extracted_texts : list string) (product : string)
    : Product :=
  {| name := enhance_product_name product extracted_texts;
     confidence := 7 # 10;
     category := categorize_product product;
     detection_method := "Image Caption" |}.

(** No listing of the list is similar enough to one that stands before
    it. *)
Definition pairwise_distinct (kept : list Listing) : Prop :=
  ∀ i j earlier later,
    i < j → kept !! i = Some earlier → kept !! j = Some later →
    (overlap_ratio later earlier <= 6 # 10)%Q.

(** What holds of every listing an adapter can append. *)
Definition well_formed (listing : Listing) : Prop :=
  title listing ≠ "N/A" ∧
  (retailer listing = "Amazon India" ∧ is_Some (product_link listing)
   ∨ retailer listing = "Flipkart" ∧ image_url listing ≠ ""
   ∨ retailer listing = "Google Shopping" ∧ image_url listing ≠ "").

(** What [extract_brand_info] can return: no brand or a known brand with a
    capital, and no model or 3 to 10 capitals and digits. *)
Definition brand_info_ok (brand_info : BrandInfo) : Prop :=
  (brand brand_info = "" ∨
   ∃ known, known ∈ known_brands ∧ brand brand_info = Py.title known) ∧
  (model brand_info = "" ∨
   Py.all_chars is_upper_or_digit (model brand_info) = true
   ∧ 3 ≤ String.length (model brand_info) ≤ 10).

(** The characters [quote_plus] writes. *)
Definition url_safe (c : ascii) : bool :=
  Py.is_upper c || Py.is_lower c || Py.is_digit c
  || bool_decide (c ∈ ["_"; "."; "-"; "~"; "+"; "%"]%char).

(** ** Binary floating point

    The one place where a threshold is compared with the rounded result of
    an operation is the quotient in [remove_duplicates].  This module has the
    quotient as IEEE 754 double precision computes it, to compare it with
    the exact one. *)

Module Binary64.

Definition prec : Z := 53.
Definition emax : Z := 1024.

(** [float(n)] *)
Definition of_nat (n : nat) : spec_float :=
  binary_normalize prec emax (Z.of_nat n) 0 false.

(** The literal [0.6]: 5404319552844595 / 2^53. *)
Definition f0_6 : spec_float := S754_finite false 5404319552844595 (-53).

Definition truediv (a b : nat) : spec_float :=
  SFdiv prec emax (of_nat a) (of_nat b).

(** [a / b > 0.6] *)
Definition ratio_exceeds (a b : nat) : bool := SFltb f0_6 (truediv a b).

(** The rounded comparison and the exact one agree for every title of at
    most [n] words. *)
Definition agrees_up_to (n : nat) : bool :=
  forallb (λ b, forallb (λ a, Bool.eqb (ratio_exceeds a (Nat.max b 1))
                                       (Py.Qltb (6 # 10)
                                          (Z.of_nat a # Pos.of_nat (Nat.max b 1))))
                        (seq 0 (S b)))
          (seq 0 (S n)).

End Binary64.

(** ** Test data *)

Definition world0 : World := {| now := 0; requests := [] |}.

(** A tag with one text node and the given attributes. *)
Definition tag (content : string) (attributes : list (string * string)) : Tag :=
  {| strings := [content]; attrs := list_to_map attributes |}.

(** A Flipkart container with a title, and with an image when [src] is
    given. *)
Definition flipkart_container (product_title : string) (src : option string)
    : Soup :=
  {| select_one := λ _, None;
     find := λ name class_,
       if bool_decide (name = "div" ∧ class_ = Some "_4rR01T")
       then Some (tag product_title [])
       else if bool_decide (name = "img" ∧ class_ = Some "_396cs4")
       then (λ url, tag "" [("src", url)]) <$> src
       else None |}.

(** An Amazon result with an optional title, image and rating text. *)
Definition amazon_result (product_title src rating_text : option string) : Soup :=
  {| select_one := λ selector,
       if bool_decide (selector = "h2 a span")
       then (λ t, tag t []) <$> product_title else None;
     find := λ name class_,
       if bool_decide (name = "img" ∧ class_ = None)
       then (λ url, tag "" [("src", url)]) <$> src
       else if bool_decide (name = "span" ∧ class_ = Some "a-icon-alt")
       then (λ t, tag t []) <$> rating_text
       else None |}.

(** A Google Shopping element with all four parts, and one without a
    price. *)
Definition google_element (product_title : string) (src : option string)
    (priced : bool) : WebElement :=
  {| find_element := λ selector,
       if bool_decide (selector = ".Xjkr3b")
       then Some {| text := product_title; attributes := ∅ |}
       else if bool_decide (selector = ".a8Pemb")
       then (if priced then Some {| text := "Rs. 999"; attributes := ∅ |} else None)
       else if bool_decide (selector = ".ArOc1c img")
       then Some {| text := "";
                    attributes := from_option (λ url, {["src" := url]}) ∅ src |}
       else if bool_decide (selector = "a")
       then Some {| text := ""; attributes := {["href" := "https://shop.example/p"]} |}
       else None |}.

Definition page_of (containers : list Soup) : Page :=
  {| find_all := λ name attribute value,
       if bool_decide (name = "div" ∧ attribute = "class" ∧ value = "_1AtVbE")
       then containers else [] |}.

(** Every request times out after ten seconds and Chrome does not start. *)
Definition unreachable_web : Web :=
  {| http_get := λ _, {| elapsed := 10000; result := Raised "Timeout" |};
     chrome := {| elapsed := 0; result := Raised "WebDriverException" |} |}.

(** Amazon times out; Flipkart and Google Shopping answer with one product
    each, under titles that share most of their words or none. *)
Definition partial_web (google_title : string) : Web :=
  {| http_get := λ url,
       if String.prefix "https://www.amazon.in" url
       then {| elapsed := 10000; result := Raised "Timeout" |}
       else {| elapsed := 400;
               result := Returned (page_of
                 [flipkart_container "Wireless Bluetooth Headphones Black"
                                     (Some "https://img.example/1.jpg")]) |};
     chrome :=
       {| elapsed := 900;
          result := Returned
            {| get := λ _,
                 {| elapsed := 700;
                    result := Returned
                      {| find_elements := λ _,
                           Returned [google_element google_title
                                       (Some "https://img.example/2.jpg") true]
                      |} |};
               quit := Returned () |} |} |}.

Definition titled (product_title : string) : Listing :=
  {| title := product_title; price := "N/A"; image_url := "";
     product_link := None; rating := "N/A"; reviews := "N/A";
     retailer := "Amazon India" |}.

(** Every page has the given Flipkart containers; Chrome does not start. *)
Definition flipkart_web (containers : list Soup) : Web :=
  {| http_get := λ _, {| elapsed := 300; result := Returned (page_of containers) |};
     chrome := {| elapsed := 0; result := Raised "WebDriverException" |} |}.

Definition detected (label : string) (c : Q) : Detection :=
  {| det_name := Some label; det_confidence := Some c |}.

Definition priced (shop : string) (p : option Q) : App.PriceData :=
  {| App.retailer := shop; App.title := "Phone X"; App.price := p;
     App.currency := None; App.error := None |}.

(** * Properties *)

(** ** Deduplication *)

Section Dedup.

Implicit Types (product later earlier : Listing) (kept products : list Listing).

Lemma truediv_max_1 (a b : nat) :
  Py.truediv a (max b 1) = Some (Z.of_nat a # Pos.of_nat (max b 1)).
Proof. destruct (max b 1) eqn:E; [lia | done]. Qed.

Lemma any_similar_existsb (tw : gset string) (seen : list string) :
  any_similar tw seen =
  Some (existsb (λ s, Py.Qltb (6 # 10)
                        (Z.of_nat (size (tw ∩ words_of s))
                         # Pos.of_nat (max (size tw) 1)))
                seen).
Proof.
  induction seen as [|s seen IH]; [done|].
  cbn [any_similar existsb]. rewrite truediv_max_1. cbn.
  destruct (Py.Qltb _ _); [done | apply IH].
Qed.

Lemma existsb_seen_titles (f : string → bool) kept :
  existsb f (elements (list_to_set (normalized_title <$> kept) : gset string)) =
  existsb (λ k, f (normalized_title k)) kept.
Proof.
  apply eq_true_iff_eq. rewrite !existsb_exists. split.
  - intros (s & Hs & Hf).
    apply list_elem_of_In, elem_of_elements, elem_of_list_to_set,
      list_elem_of_fmap in Hs as (k & -> & Hk).
    exists k. by rewrite <- list_elem_of_In.
  - intros (k & Hk & Hf). exists (normalized_title k). split; [|done].
    apply list_elem_of_In, elem_of_elements, elem_of_list_to_set,
      list_elem_of_fmap.
    exists k. by rewrite list_elem_of_In.
Qed.

Lemma seen_of_snoc kept product :
  {[normalized_title product]} ∪ seen_of kept = seen_of (kept ++ [product]).
Proof.
  unfold seen_of. rewrite fmap_app, list_to_set_app_L. cbn.
  by rewrite (right_id_L ∅ (∪)), (comm_L (∪)).
Qed.

Lemma remove_duplicates_loop_fold products kept :
  remove_duplicates_loop products (kept, seen_of kept) =
  Some (fold_left keep_unless_duplicate products kept,
        seen_of (fold_left keep_unless_duplicate products kept)).
Proof.
  revert kept. induction products as [|p products IH]; intros kept; [done|].
  cbn [remove_duplicates_loop fold_left].
  rewrite any_similar_existsb. cbn [mbind option_bind].
  unfold seen_of at 1. rewrite existsb_seen_titles. fold (seen_of kept).
  unfold keep_unless_duplicate at 2 4.
  change (existsb _ kept) with (existsb (duplicate_of p) kept).
  destruct (existsb (duplicate_of p) kept); [apply IH|].
  rewrite seen_of_snoc. apply IH.
Qed.

Lemma remove_duplicates_fold products :
  remove_duplicates products = Some (fold_left keep_unless_duplicate products []).
Proof.
  unfold remove_duplicates.
  change (∅ : gset string) with (seen_of []).
  by rewrite remove_duplicates_loop_fold.
Qed.

Lemma keep_unless_duplicate_prefix products kept :
  ∃ tail, fold_left keep_unless_duplicate products kept = kept ++ tail.
Proof.
  revert kept. induction products as [|p products IH]; intros kept.
  - exists []. by rewrite app_nil_r.
  - cbn [fold_left]. unfold keep_unless_duplicate at 2.
    destruct (existsb (duplicate_of p) kept); [apply IH|].
    destruct (IH (kept ++ [p])) as [tail ->].
    exists (p :: tail). by rewrite <- app_assoc.
Qed.

Lemma keep_unless_duplicate_fixed products :
  let kept := fold_left keep_unless_duplicate products [] in
  fold_left keep_unless_duplicate kept [] = kept.
Proof.
  induction products as [|p products IH] using rev_ind; [done|].
  cbn zeta in *. rewrite fold_left_app. cbn [fold_left].
  set (kept := fold_left keep_unless_duplicate products []) in *.
  unfold keep_unless_duplicate at 2 3.
  destruct (existsb (duplicate_of p) kept) eqn:Hdup; [done|].
  rewrite fold_left_app, IH. cbn [fold_left].
  unfold keep_unless_duplicate. by rewrite Hdup.
Qed.

Lemma duplicate_of_true later earlier :
  duplicate_of later earlier = true ↔ (6 # 10 < overlap_ratio later earlier)%Q.
Proof.
  unfold duplicate_of, Py.Qltb. rewrite negb_true_iff.
  rewrite <- not_true_iff_false, Qle_bool_iff. split.
  - apply Qnot_le_lt.
  - apply Qlt_not_le.
Qed.

Lemma duplicate_of_false later earlier :
  duplicate_of later earlier = false ↔ (overlap_ratio later earlier <= 6 # 10)%Q.
Proof.
  unfold duplicate_of, Py.Qltb. by rewrite negb_false_iff, Qle_bool_iff.
Qed.

End Dedup.

(** C1. Whatever was processed before, the next listing is dropped exactly
    when some listing kept so far shares with it more than 0.6 of the later
    listing's word count (at least 1), and is appended exactly when no kept
    listing does, a ratio of exactly 0.6 included; the kept listings stay as
    they were. *)
Theorem remove_duplicates_threshold (products : list Listing) (later : Listing) :
  ∃ kept,
    remove_duplicates products = Some kept ∧
    (remove_duplicates (products ++ [later]) = Some kept ↔
       ∃ earlier, earlier ∈ kept ∧ (6 # 10 < overlap_ratio later earlier)%Q) ∧
    (remove_duplicates (products ++ [later]) = Some (kept ++ [later]) ↔
       ∀ earlier, earlier ∈ kept → (overlap_ratio later earlier <= 6 # 10)%Q).
Proof.
  exists (fold_left keep_unless_duplicate products []).
  rewrite !remove_duplicates_fold, fold_left_app. cbn [fold_left].
  set (kept := fold_left keep_unless_duplicate products []).
  split; [done|]. unfold keep_unless_duplicate.
  destruct (existsb (duplicate_of later) kept) eqn:Hdup.
  - apply existsb_exists in Hdup as (earlier & Hin & Hdup).
    apply list_elem_of_In in Hin. apply duplicate_of_true in Hdup. split.
    + split; [eauto | done].
    + split.
      * intros [= Heq]. apply (f_equal length) in Heq.
        rewrite length_app in Heq. cbn in Heq. lia.
      * intros Hle. apply Qlt_not_le in Hdup. destruct Hdup. by apply Hle.
  - assert (Hall : ∀ earlier, earlier ∈ kept →
                     (overlap_ratio later earlier <= 6 # 10)%Q).
    { intros earlier Hin. apply duplicate_of_false.
      apply not_true_iff_false. intros Hd.
      apply not_true_iff_false in Hdup. apply Hdup, existsb_exists.
      exists earlier. by rewrite <- list_elem_of_In. }
    split; [|done]. split.
    + intros [= Heq]. apply (f_equal length) in Heq.
      rewrite length_app in Heq. cbn in Heq. lia.
    + intros (earlier & Hin & Hlt). apply Qlt_not_le in Hlt.
      destruct Hlt. by apply Hall.
Qed.

(** C9. Deduplicating the output of a deduplication returns it unchanged. *)
Theorem remove_duplicates_idempotent (products : list Listing) :
  ∃ kept,
    remove_duplicates products = Some kept ∧
    remove_duplicates kept = Some kept.
Proof.
  exists (fold_left keep_unless_duplicate products []).
  rewrite !remove_duplicates_fold. split; [done|].
  f_equal. apply keep_unless_duplicate_fixed.
Qed.

(** C10. The division in the loop never fails, so the deduplication returns
    a list for every input; a listing whose title has no word has ratio 0
    with every listing and is kept wherever it stands in the input. *)
Theorem remove_duplicates_total_keeps_wordless
    (products : list Listing) (later : Listing) (rest : list Listing) :
  (∀ tw seen_words : gset string,
     is_Some (Py.truediv (size (tw ∩ seen_words)) (max (size tw) 1))) ∧
  is_Some (remove_duplicates (products ++ later :: rest)) ∧
  (title_words later = ∅ →
     (∀ earlier, overlap_ratio later earlier == 0)%Q ∧
     ∃ kept tail,
       remove_duplicates products = Some kept ∧
       remove_duplicates (products ++ later :: rest) = Some (kept ++ later :: tail)).
Proof.
  split; [intros; by rewrite truediv_max_1|].
  rewrite !remove_duplicates_fold. split; [done|]. intros Hempty.
  assert (Hzero : ∀ earlier, (overlap_ratio later earlier == 0)%Q).
  { intros earlier. unfold overlap_ratio. rewrite Hempty.
    by rewrite (left_absorb_L ∅ (∩)). }
  split; [done|].
  set (kept := fold_left keep_unless_duplicate products []).
  rewrite fold_left_app. cbn [fold_left]. fold kept.
  assert (Hkeep : keep_unless_duplicate kept later = kept ++ [later]).
  { unfold keep_unless_duplicate.
    destruct (existsb (duplicate_of later) kept) eqn:Hdup; [|done].
    apply existsb_exists in Hdup as (earlier & _ & Hdup).
    apply duplicate_of_true in Hdup. rewrite Hzero in Hdup. discriminate. }
  rewrite Hkeep.
  destruct (keep_unless_duplicate_prefix rest (kept ++ [later])) as [tail ->].
  exists kept, tail. by rewrite <- app_assoc.
Qed.

(** ** The adapters and the aggregator *)

Section Search.

Context (web : Web) (product_name : string) (n : Z).

Lemma try_except_returns_contribution (attempt : Run (list Listing)) (w : World) :
  try_except attempt (λ _, mret []) w =
  (Returned (contribution (attempt w).1), (attempt w).2).
Proof. unfold try_except. by destruct (attempt w) as [[products|e] w']. Qed.

Lemma remove_duplicates_returns (products : list Listing) (w : World) :
  ∃ unique,
    remove_duplicates products = Some unique ∧
    of_division (remove_duplicates products) w = (Returned unique, w).
Proof.
  exists (fold_left keep_unless_duplicate products []).
  by rewrite remove_duplicates_fold.
Qed.

Lemma search_all_platforms_run (w : World) :
  let amazon := amazon_attempt web product_name n w in
  let flipkart := flipkart_attempt web product_name n amazon.2 in
  let google := google_attempt web product_name n flipkart.2 in
  ∃ unique,
    remove_duplicates (contribution amazon.1 ++ contribution flipkart.1
                       ++ contribution google.1) = Some unique ∧
    search_all_platforms web product_name n w = (Returned unique, google.2).
Proof.
  intros amazon flipkart google.
  destruct (remove_duplicates_returns
              (([] ++ contribution amazon.1) ++ contribution flipkart.1
               ++ contribution google.1) google.2) as (unique & Hu & Hrun).
  exists unique. split; [done|].
  unfold search_all_platforms, mbind, run_bind, search_amazon_products,
    search_flipkart_products, search_google_shopping.
  rewrite try_except_returns_contribution. fold amazon.
  rewrite try_except_returns_contribution. fold flipkart.
  rewrite try_except_returns_contribution. fold google.
  rewrite <- app_assoc. by rewrite Hrun.
Qed.

Lemma amazon_attempt_world (w : World) :
  (amazon_attempt web product_name n w).2 =
  pass (elapsed (http_get web (amazon_url product_name)))
       (sent (amazon_url product_name) w).
Proof.
  unfold amazon_attempt, mbind, run_bind, requests_get. fold (amazon_url product_name).
  by destruct (result (http_get web (amazon_url product_name))).
Qed.

Lemma flipkart_attempt_world (w : World) :
  (flipkart_attempt web product_name n w).2 =
  pass (elapsed (http_get web (flipkart_url product_name)))
       (sent (flipkart_url product_name) w).
Proof.
  unfold flipkart_attempt, mbind, run_bind, requests_get.
  fold (flipkart_url product_name).
  by destruct (result (http_get web (flipkart_url product_name))).
Qed.

Lemma google_attempt_world (w : World) :
  (google_attempt web product_name n w).2 =
  {| now := (now w + google_elapsed web product_name)%N;
     requests := requests w ++ google_requests web product_name (now w) |}.
Proof.
  unfold google_attempt, google_elapsed, google_requests, mbind, run_bind,
    setup_driver, driver_get, sleep, of_outcome.
  fold (google_url product_name).
  destruct w as [t sent_before]. cbn.
  destruct (result (chrome web)) as [driver|e]; cbn.
  - destruct (result (get driver (google_url product_name))) as [page|e]; cbn.
    + destruct (find_elements page ".sh-dgr__content"); cbn;
        [destruct (quit driver); cbn|];
        unfold pass, sent; cbn; f_equal; lia.
    + unfold pass, sent; cbn; f_equal; lia.
  - unfold pass; cbn. f_equal; [lia | by rewrite app_nil_r].
Qed.

End Search.

(** C5. No adapter and no search raises: an adapter returns the listings of
    its attempt, or no listing when the attempt raised, and the search
    returns the deduplicated concatenation of what the three adapters
    returned, so that of the successful ones alone. *)
Theorem search_all_platforms_never_raises
    (web : Web) (product_name : string) (n : Z) (w : World) :
  let amazon := amazon_attempt web product_name n in
  let flipkart := flipkart_attempt web product_name n in
  let google := google_attempt web product_name n in
  (∀ w', search_amazon_products web product_name n w'
         = (Returned (contribution (amazon w').1), (amazon w').2)) ∧
  (∀ w', search_flipkart_products web product_name n w'
         = (Returned (contribution (flipkart w').1), (flipkart w').2)) ∧
  (∀ w', search_google_shopping web product_name n w'
         = (Returned (contribution (google w').1), (google w').2)) ∧
  ∃ unique,
    remove_duplicates
      (contribution (amazon w).1
       ++ contribution (flipkart (amazon w).2).1
       ++ contribution (google (flipkart (amazon w).2).2).1) = Some unique ∧
    search_all_platforms web product_name n w
      = (Returned unique, (google (flipkart (amazon w).2).2).2).
Proof.
  intros amazon flipkart google.
  unfold search_amazon_products, search_flipkart_products, search_google_shopping.
  repeat split; try (intros w'; apply try_except_returns_contribution).
  apply search_all_platforms_run.
Qed.

(** The search when Amazon times out and the other two answer: the listings
    of Flipkart and Google Shopping, deduplicated. *)
Example search_with_amazon_down :
  (search_all_platforms (partial_web "USB Cable") "wireless headphones" 3 world0).1
    = Returned
        [ {| title := "Wireless Bluetooth Headphones Black"; price := "N/A";
             image_url := "https://img.example/1.jpg"; product_link := Some "";
             rating := "N/A"; reviews := "N/A"; retailer := "Flipkart" |};
          {| title := "USB Cable"; price := "Rs. 999";
             image_url := "https://img.example/2.jpg";
             product_link := Some "https://shop.example/p";
             rating := "N/A"; reviews := "N/A"; retailer := "Google Shopping" |} ]
  ∧ title <$> contribution
      (search_all_platforms (partial_web "Wireless Bluetooth Headphones")
         "wireless headphones" 3 world0).1
    = ["Wireless Bluetooth Headphones Black"].
Proof. split; vm_compute; reflexivity. Qed.

(** C8, as the code has it. The three adapters are called one after the
    other with the same product name: Flipkart is asked when Amazon has
    answered or failed, Google Shopping when Flipkart has, and the search
    takes the sum of the three times. *)
Theorem search_all_platforms_sequential
    (web : Web) (product_name : string) (n : Z) (w : World) :
  let finished := (search_all_platforms web product_name n w).2 in
  let t_amazon := elapsed (http_get web (amazon_url product_name)) in
  let t_flipkart := elapsed (http_get web (flipkart_url product_name)) in
  requests finished =
    requests w ++
    [ (now w, amazon_url product_name);
      ((now w + t_amazon)%N, flipkart_url product_name) ] ++
    google_requests web product_name (now w + t_amazon + t_flipkart)%N ∧
  now finished =
    (now w + t_amazon + t_flipkart + google_elapsed web product_name)%N.
Proof.
  intros finished t_amazon t_flipkart. subst finished.
  destruct (search_all_platforms_run web product_name n w) as (unique & _ & ->).
  rewrite google_attempt_world, flipkart_attempt_world, amazon_attempt_world.
  destruct w as [t sent_before]. cbn. split; [|done].
  by rewrite <- !app_assoc.
Qed.

(** C8, as the claim has it, fails: when every request times out after ten
    seconds, the one to Flipkart leaves ten seconds after the search was
    called, and the search takes twenty seconds. *)
Lemma search_all_platforms_not_dispatched_together :
  ¬ dispatched_together unreachable_web "phone" 3 world0 ∧
  (search_all_platforms unreachable_web "phone" 3 world0).2 =
    {| now := 20000;
       requests := [ (0%N, "https://www.amazon.in/s?k=phone");
                     (10000%N, "https://www.flipkart.com/search?q=phone") ] |}.
Proof.
  split; [|vm_compute; reflexivity].
  intros Hall.
  specialize (Hall 10000%N "https://www.flipkart.com/search?q=phone").
  assert (Hsent : (10000%N, "https://www.flipkart.com/search?q=phone")
                  ∈ drop (length (requests world0))
                      (requests (search_all_platforms unreachable_web "phone" 3
                                   world0).2)).
  { vm_compute. apply list_elem_of_further, list_elem_of_here. }
  apply Hall in Hsent. discriminate.
Qed.

(** ** What an adapter emits *)

Lemma elem_of_collect {A} (product_of : A → outcome (option Listing))
    (results : list A) (listing : Listing) :
  listing ∈ collect product_of results ↔
  ∃ result, result ∈ results ∧ product_of result = Returned (Some listing).
Proof.
  unfold collect. rewrite list_elem_of_omap. split.
  - intros (result & Hin & Hsome). exists result. split; [done|].
    destruct (product_of result) as [[appended|]|e]; by simplify_eq.
  - intros (result & Hin & Heq). exists result. by rewrite Heq.
Qed.

Lemma slice_to_take {A} (n : nat) (xs : list A) :
  Py.slice_to (Z.of_nat n) xs = take n xs.
Proof.
  unfold Py.slice_to. destruct (0 <=? Z.of_nat n)%Z eqn:E.
  - by rewrite Nat2Z.id.
  - apply Z.leb_gt in E. lia.
Qed.

Lemma truthy_spec (s : option string) :
  truthy s = true ↔ ∃ url, s = Some url ∧ url ≠ "".
Proof.
  destruct s as [url|]; cbn.
  - rewrite bool_decide_eq_true. split; [eauto|]. by intros (? & [= <-] & ?).
  - split; [done|]. by intros (? & ? & ?).
Qed.

Lemma amazon_emits (result : Soup) (rating' : string) :
  Amazon.rating_of result = Returned rating' →
  (∃ listing, Amazon.product_of result = Returned (Some listing)) ↔
  Amazon.title_of result ≠ "N/A" ∨ Amazon.image_url_of result ≠ "".
Proof.
  intros Hrating. unfold Amazon.product_of. rewrite Hrating.
  destruct (bool_decide (Amazon.title_of result ≠ "N/A")) eqn:Ht;
    [apply bool_decide_eq_true in Ht | apply bool_decide_eq_false in Ht];
    (destruct (bool_decide (Amazon.image_url_of result ≠ "")) eqn:Hi;
      [apply bool_decide_eq_true in Hi | apply bool_decide_eq_false in Hi]);
    cbn; split; eauto.
  - by intros (listing & ?).
  - by intros [?|?].
Qed.

Lemma flipkart_emits (container : Soup) :
  (∃ listing, Flipkart.product_of container = Returned (Some listing)) ↔
  Flipkart.title_of container ≠ "N/A" ∧
  ∃ url, Flipkart.image_url_of container = Some url ∧ url ≠ "".
Proof.
  rewrite <- truthy_spec. unfold Flipkart.product_of.
  destruct (bool_decide (Flipkart.title_of container ≠ "N/A")) eqn:Ht;
    [apply bool_decide_eq_true in Ht | apply bool_decide_eq_false in Ht];
    destruct (truthy (Flipkart.image_url_of container));
    cbn; split; eauto; try (by intros (listing & ?)); by intros [? ?].
Qed.

Lemma google_emits (element : WebElement)
    (title_elem price_elem img_elem link_elem : WebTag) :
  find_element element ".Xjkr3b" = Some title_elem →
  find_element element ".a8Pemb" = Some price_elem →
  find_element element ".ArOc1c img" = Some img_elem →
  find_element element "a" = Some link_elem →
  (∃ listing, Google.product_of element = Returned (Some listing)) ↔
  text title_elem ≠ "N/A" ∧
  ∃ url, attributes img_elem !! "src" = Some url ∧ url ≠ "".
Proof.
  intros Htitle Hprice Himg Hlink. rewrite <- truthy_spec.
  unfold Google.product_of, Google.find_or_raise.
  rewrite Htitle, Hprice, Himg, Hlink.
  destruct (bool_decide (text title_elem ≠ "N/A")) eqn:Ht;
    [apply bool_decide_eq_true in Ht | apply bool_decide_eq_false in Ht];
    destruct (truthy (attributes img_elem !! "src"));
    cbn; split; eauto; try (by intros (listing & ?)); by intros [? ?].
Qed.

Lemma amazon_reads_first (web : Web) (product_name : string) (n : nat)
    (w : World) (soup : Page) :
  result (http_get web (amazon_url product_name)) = Returned soup →
  (search_amazon_products web product_name (Z.of_nat n) w).1 =
    Returned (collect Amazon.product_of
                (take n (find_all soup "div" "data-component-type"
                           "s-search-result"))).
Proof.
  intros Hpage. unfold search_amazon_products.
  rewrite try_except_returns_contribution.
  unfold amazon_attempt, mbind, run_bind, requests_get.
  fold (amazon_url product_name). rewrite Hpage. cbn. by rewrite slice_to_take.
Qed.

Lemma flipkart_reads_first (web : Web) (product_name : string) (n : nat)
    (w : World) (soup : Page) :
  result (http_get web (flipkart_url product_name)) = Returned soup →
  (search_flipkart_products web product_name (Z.of_nat n) w).1 =
    Returned (collect Flipkart.product_of
                (take n (or_list (find_all soup "div" "class" "_1AtVbE")
                                 (find_all soup "div" "class" "_13oc-S")))).
Proof.
  intros Hpage. unfold search_flipkart_products.
  rewrite try_except_returns_contribution.
  unfold flipkart_attempt, mbind, run_bind, requests_get.
  fold (flipkart_url product_name). rewrite Hpage. cbn. by rewrite slice_to_take.
Qed.

Lemma google_reads_first (web : Web) (product_name : string) (n : nat)
    (w : World) (driver : Driver) (page : Rendered) (elements : list WebElement) :
  result (chrome web) = Returned driver →
  result (get driver (google_url product_name)) = Returned page →
  find_elements page ".sh-dgr__content" = Returned elements →
  quit driver = Returned () →
  (search_google_shopping web product_name (Z.of_nat n) w).1 =
    Returned (collect Google.product_of (take n elements)).
Proof.
  intros Hchrome Hpage Helements Hquit. unfold search_google_shopping.
  rewrite try_except_returns_contribution.
  unfold google_attempt, mbind, run_bind, setup_driver, driver_get, sleep,
    of_outcome.
  fold (google_url product_name). rewrite Hchrome. cbn.
  rewrite Hpage. cbn. rewrite Helements, Hquit. cbn. by rewrite slice_to_take.
Qed.

(** C4, as the code has it. Amazon appends a product for a result that has
    a title other than the placeholder or an image address; Flipkart and
    Google Shopping append one for a result that has both.  An adapter looks
    at the first [n] results only. *)
Theorem adapters_emit_rule (item container : Soup) (element : WebElement) :
  (∀ rating', Amazon.rating_of item = Returned rating' →
     (∃ listing, Amazon.product_of item = Returned (Some listing)) ↔
     Amazon.title_of item ≠ "N/A" ∨ Amazon.image_url_of item ≠ "") ∧
  ((∃ listing, Flipkart.product_of container = Returned (Some listing)) ↔
     Flipkart.title_of container ≠ "N/A" ∧
     ∃ url, Flipkart.image_url_of container = Some url ∧ url ≠ "") ∧
  (∀ title_elem price_elem img_elem link_elem,
     find_element element ".Xjkr3b" = Some title_elem →
     find_element element ".a8Pemb" = Some price_elem →
     find_element element ".ArOc1c img" = Some img_elem →
     find_element element "a" = Some link_elem →
     (∃ listing, Google.product_of element = Returned (Some listing)) ↔
     text title_elem ≠ "N/A" ∧
     ∃ url, attributes img_elem !! "src" = Some url ∧ url ≠ "") ∧
  (∀ (web : Web) (product_name : string) (n : nat) (w : World) (soup : Page),
     result (http_get web (amazon_url product_name)) = Returned soup →
     (search_amazon_products web product_name (Z.of_nat n) w).1 =
       Returned (collect Amazon.product_of
                   (take n (find_all soup "div" "data-component-type"
                              "s-search-result")))) ∧
  (∀ (web : Web) (product_name : string) (n : nat) (w : World) (soup : Page),
     result (http_get web (flipkart_url product_name)) = Returned soup →
     (search_flipkart_products web product_name (Z.of_nat n) w).1 =
       Returned (collect Flipkart.product_of
                   (take n (or_list (find_all soup "div" "class" "_1AtVbE")
                                    (find_all soup "div" "class" "_13oc-S"))))) ∧
  (∀ (web : Web) (product_name : string) (n : nat) (w : World)
     (driver : Driver) (page : Rendered) (elements : list WebElement),
     result (chrome web) = Returned driver →
     result (get driver (google_url product_name)) = Returned page →
     find_elements page ".sh-dgr__content" = Returned elements →
     quit driver = Returned () →
     (search_google_shopping web product_name (Z.of_nat n) w).1 =
       Returned (collect Google.product_of (take n elements))).
Proof.
  split; [apply amazon_emits|].
  split; [apply flipkart_emits|].
  split; [apply google_emits|].
  split; [apply amazon_reads_first|].
  split; [apply flipkart_reads_first | apply google_reads_first].
Qed.

(** An Amazon result with an image and no title, and a Google Shopping
    element with a title and an image, are emitted. *)
Lemma adapters_emit_rule_witness :
  (∃ listing,
     Amazon.product_of
       (amazon_result None (Some "https://img.example/a.jpg")
                      (Some "4.5 out of 5 stars"))
     = Returned (Some listing)) ∧
  (∃ listing,
     Google.product_of
       (google_element "Phone X" (Some "https://img.example/2.jpg") true)
     = Returned (Some listing)).
Proof.
  destruct (adapters_emit_rule
              (amazon_result None (Some "https://img.example/a.jpg")
                             (Some "4.5 out of 5 stars"))
              (flipkart_container "Phone X" None)
              (google_element "Phone X" (Some "https://img.example/2.jpg") true))
    as (Hamazon & _ & Hgoogle & _).
  split.
  - apply (Hamazon "4.5"); [reflexivity|]. right. vm_compute. discriminate.
  - apply (Hgoogle {| text := "Phone X"; attributes := ∅ |}
                   {| text := "Rs. 999"; attributes := ∅ |}
                   {| text := ""; attributes := {["src" := "https://img.example/2.jpg"]} |}
                   {| text := ""; attributes := {["href" := "https://shop.example/p"]} |});
      try reflexivity.
    split; [discriminate|].
    exists "https://img.example/2.jpg". split; [reflexivity | discriminate].
Defined.

(** C4, as the claim has it, fails: Flipkart drops a result that has a title
    and no image, and the search returns no listing for a page of that
    result alone. *)
Lemma flipkart_drops_titled_result :
  Flipkart.title_of (flipkart_container "Phone X" None) = "Phone X" ∧
  Flipkart.product_of (flipkart_container "Phone X" None) = Returned None ∧
  (search_flipkart_products (flipkart_web [flipkart_container "Phone X" None])
     "phone" 5 world0).1 = Returned [] ∧
  ¬ ((∃ listing, Flipkart.product_of (flipkart_container "Phone X" None)
                 = Returned (Some listing)) ↔
     (Flipkart.title_of (flipkart_container "Phone X" None) ≠ "N/A" ∨
      ∃ url, Flipkart.image_url_of (flipkart_container "Phone X" None) = Some url
             ∧ url ≠ "")).
Proof.
  split; [reflexivity|]. split; [reflexivity|]. split; [reflexivity|].
  intros [_ Hemit]. destruct Hemit as (listing & Hemit); [|discriminate].
  left. discriminate.
Qed.

(** A result that makes the adapter raise is skipped: an Amazon result whose
    rating text is white space, and a Google Shopping element without a
    price. *)
Example results_skipped_on_exception :
  Amazon.product_of (amazon_result (Some "Phone X") None (Some "  "))
    = Raised "IndexError" ∧
  collect Amazon.product_of [amazon_result (Some "Phone X") None (Some "  ")] = [] ∧
  Google.product_of (google_element "Phone X" (Some "https://img.example/2.jpg") false)
    = Raised "NoSuchElementException".
Proof. repeat split; reflexivity. Qed.

(** ** The price analysis *)

Section Prices.

Import App.

Lemma Qltb_true (x y : Q) : Py.Qltb x y = true ↔ (x < y)%Q.
Proof.
  unfold Py.Qltb. rewrite negb_true_iff, <- not_true_iff_false, Qle_bool_iff.
  split; [apply Qnot_le_lt | apply Qlt_not_le].
Qed.

Lemma Qltb_false (x y : Q) : Py.Qltb x y = false ↔ (y <= x)%Q.
Proof. unfold Py.Qltb. by rewrite negb_false_iff, Qle_bool_iff. Qed.

Lemma fold_min_spec (rest : list Q) (first : Q) :
  let lowest :=
    fold_left (λ best item, if Py.Qltb item best then item else best) rest first in
  lowest ∈ first :: rest ∧ ∀ p, p ∈ first :: rest → (lowest <= p)%Q.
Proof.
  revert first. induction rest as [|item rest IH]; intros first; cbn.
  - split; [apply list_elem_of_here|]. intros p ->%list_elem_of_singleton.
    apply Qle_refl.
  - destruct (IH (if Py.Qltb item first then item else first)) as [Hin Hle].
    split.
    + apply elem_of_cons in Hin as [->|Hin].
      * destruct (Py.Qltb item first);
          [apply list_elem_of_further, list_elem_of_here | apply list_elem_of_here].
      * by do 2 apply list_elem_of_further.
    + intros p Hp.
      assert (Hstep : ((if Py.Qltb item first then item else first) <= first)%Q
                      ∧ ((if Py.Qltb item first then item else first) <= item)%Q).
      { destruct (Py.Qltb item first) eqn:E.
        - apply Qltb_true in E. split; [by apply Qlt_le_weak | apply Qle_refl].
        - apply Qltb_false in E. split; [apply Qle_refl | done]. }
      destruct Hstep as [Hfirst Hitem].
      apply elem_of_cons in Hp as [->|Hp].
      * eapply Qle_trans; [|exact Hfirst]. apply Hle, list_elem_of_here.
      * apply elem_of_cons in Hp as [->|Hp].
        -- eapply Qle_trans; [|exact Hitem]. apply Hle, list_elem_of_here.
        -- by apply Hle, list_elem_of_further.
Qed.

Lemma fold_max_spec (rest : list Q) (first : Q) :
  let highest :=
    fold_left (λ best item, if Py.Qltb best item then item else best) rest first in
  highest ∈ first :: rest ∧ ∀ p, p ∈ first :: rest → (p <= highest)%Q.
Proof.
  revert first. induction rest as [|item rest IH]; intros first; cbn.
  - split; [apply list_elem_of_here|]. intros p ->%list_elem_of_singleton.
    apply Qle_refl.
  - destruct (IH (if Py.Qltb first item then item else first)) as [Hin Hle].
    split.
    + apply elem_of_cons in Hin as [->|Hin].
      * destruct (Py.Qltb first item);
          [apply list_elem_of_further, list_elem_of_here | apply list_elem_of_here].
      * by do 2 apply list_elem_of_further.
    + intros p Hp.
      assert (Hstep : (first <= (if Py.Qltb first item then item else first))%Q
                      ∧ (item <= (if Py.Qltb first item then item else first))%Q).
      { destruct (Py.Qltb first item) eqn:E.
        - apply Qltb_true in E. split; [by apply Qlt_le_weak | apply Qle_refl].
        - apply Qltb_false in E. split; [apply Qle_refl | done]. }
      destruct Hstep as [Hfirst Hitem].
      apply elem_of_cons in Hp as [->|Hp].
      * eapply Qle_trans; [exact Hfirst|]. apply Hle, list_elem_of_here.
      * apply elem_of_cons in Hp as [->|Hp].
        -- eapply Qle_trans; [exact Hitem|]. apply Hle, list_elem_of_here.
        -- by apply Hle, list_elem_of_further.
Qed.

Lemma elem_of_valid_prices (price_data : list PriceData) (p : Q) :
  p ∈ (valid_prices_of price_data).*2 ↔
  ∃ d, d ∈ price_data ∧ price d = Some p.
Proof.
  unfold valid_prices_of. rewrite list_elem_of_fmap. split.
  - intros ([d p'] & -> & Hin). apply list_elem_of_omap in Hin as (d' & Hin & Hd).
    destruct (price d') as [q|] eqn:E; cbn in Hd; simplify_eq. eauto.
  - intros (d & Hin & Hp). exists (d, p). split; [done|].
    apply list_elem_of_omap. exists d. split; [done|]. by rewrite Hp.
Qed.

Lemma first_retailer_found (min_price : Q) (valid : list (PriceData * Q)) :
  min_price ∈ valid.*2 → ∃ r, first_retailer_at min_price valid = Returned r.
Proof.
  induction valid as [|[d p] valid IH]; cbn; [by intros ?%not_elem_of_nil|].
  intros Hin. destruct (Qeq_bool p min_price) eqn:E; [eauto|].
  apply elem_of_cons in Hin as [->|Hin]; [|by apply IH].
  rewrite (proj2 (Qeq_bool_iff p p)) in E; [done | reflexivity].
Qed.

Lemma first_retailer_is_first (min_price : Q) (price_data : list PriceData)
    (r : string) :
  first_retailer_at min_price (valid_prices_of price_data) = Returned r →
  ∃ before d after p,
    price_data = before ++ d :: after ∧ price d = Some p ∧
    (p == min_price)%Q ∧ r = retailer d ∧
    ∀ d' p', d' ∈ before → price d' = Some p' → ¬ (p' == min_price)%Q.
Proof.
  induction price_data as [|d price_data IH]; [done|].
  unfold valid_prices_of. cbn. destruct (price d) as [p|] eqn:Hp; cbn.
  - destruct (Qeq_bool p min_price) eqn:E.
    + intros [= <-]. exists [], d, price_data, p. repeat split; try done.
      * by apply Qeq_bool_iff.
      * by intros d' p' ?%not_elem_of_nil.
    + intros Hrest.
      destruct (IH Hrest)
        as (before & d0 & after & p0 & -> & ? & ? & ? & Hbefore).
      exists (d :: before), d0, after, p0. repeat split; try done.
      intros d' p' [->|Hin]%elem_of_cons Hp'.
      * rewrite Hp in Hp'. injection Hp' as <-.
        intros Heq%Qeq_bool_iff. congruence.
      * by eapply Hbefore.
  - intros Hrest.
    destruct (IH Hrest)
      as (before & d0 & after & p0 & -> & ? & ? & ? & Hbefore).
    exists (d :: before), d0, after, p0. repeat split; try done.
    intros d' p' [->|Hin]%elem_of_cons Hp'; [congruence | by eapply Hbefore].
Qed.

End Prices.

(** C2. With fewer than two priced results the analysis is empty.  With two
    or more it has the lowest price as best price, the lowest and the highest
    price as range, their difference as savings (0 when they are equal), and
    as best retailer the one of the first result, in the order of the input,
    whose price equals the lowest. *)
Theorem price_analysis_spec (price_data : list App.PriceData) :
  let valid_prices := App.valid_prices_of price_data in
  (length valid_prices < 2 → App.price_analysis price_data = Returned None) ∧
  (2 ≤ length valid_prices →
     ∃ a, App.price_analysis price_data = Returned (Some a) ∧
       (∃ d, d ∈ price_data ∧ App.price d = Some (App.best_price a)) ∧
       (∀ d p, d ∈ price_data → App.price d = Some p →
               (App.best_price a <= p)%Q) ∧
       App.min (App.price_range a) = App.best_price a ∧
       (∃ d, d ∈ price_data ∧ App.price d = Some (App.max (App.price_range a))) ∧
       (∀ d p, d ∈ price_data → App.price d = Some p →
               (p <= App.max (App.price_range a))%Q) ∧
       (App.savings a == App.max (App.price_range a) - App.min (App.price_range a))%Q ∧
       ((App.min (App.price_range a) == App.max (App.price_range a))%Q →
        (App.savings a == 0)%Q) ∧
       ∃ before d after p,
         price_data = before ++ d :: after ∧ App.price d = Some p ∧
         (p == App.best_price a)%Q ∧ App.best_retailer a = App.retailer d ∧
         ∀ d' p', d' ∈ before → App.price d' = Some p' →
                  ¬ (p' == App.best_price a)%Q).
Proof.
  intros valid_prices. unfold App.price_analysis. fold valid_prices. split.
  - intros Hfew. rewrite bool_decide_eq_false_2; [done | lia].
  - intros Hmany. rewrite bool_decide_eq_true_2; [|done].
    destruct (valid_prices.*2) as [|first rest] eqn:Hprices.
    { apply (f_equal length) in Hprices. rewrite length_fmap in Hprices.
      cbn in Hprices. lia. }
    cbn [App.py_min App.py_max].
    destruct (fold_min_spec rest first) as [Hmin_in Hmin_le].
    destruct (fold_max_spec rest first) as [Hmax_in Hmax_le].
    set (min_price := fold_left _ rest first) in *.
    set (max_price := fold_left (λ best item, if Py.Qltb best item then item else best)
                                rest first) in *.
    rewrite <- Hprices in Hmin_in, Hmin_le, Hmax_in, Hmax_le.
    destruct (first_retailer_found min_price valid_prices Hmin_in) as [r Hr].
    rewrite Hr. eexists. split; [reflexivity|]. cbn.
    assert (Hle : (min_price <= max_price)%Q) by by apply Hmin_le.
    split; [by apply elem_of_valid_prices|].
    split. { intros d p Hd Hp. apply Hmin_le, elem_of_valid_prices. eauto. }
    split; [done|].
    split; [by apply elem_of_valid_prices|].
    split. { intros d p Hd Hp. apply Hmax_le, elem_of_valid_prices. eauto. }
    split.
    { destruct (Py.Qltb min_price max_price) eqn:E; [reflexivity|].
      apply Qltb_false in E.
      assert (Heq : (max_price == min_price)%Q) by by apply Qle_antisym.
      rewrite Heq. ring. }
    split.
    { intros Heq. destruct (Py.Qltb min_price max_price) eqn:E; [|reflexivity].
      apply Qltb_true in E. rewrite Heq in E. by apply Qlt_irrefl in E. }
    by apply first_retailer_is_first.
Qed.

(** The analysis of one priced result, of prices 100 and 150, and of a tie. *)
Example price_analysis_examples :
  App.price_analysis [priced "Amazon India" (Some 100%Q); priced "Flipkart" None]
    = Returned None ∧
  App.price_analysis [priced "Amazon India" (Some 100%Q);
                      priced "Flipkart" (Some 150%Q)]
    = Returned (Some {| App.best_price := 100; App.best_retailer := "Amazon India";
                        App.price_range := {| App.min := 100; App.max := 150 |};
                        App.savings := 50 |}) ∧
  App.price_analysis [priced "Flipkart" (Some 150%Q);
                      priced "Amazon India" (Some 150%Q)]
    = Returned (Some {| App.best_price := 150; App.best_retailer := "Flipkart";
                        App.price_range := {| App.min := 150; App.max := 150 |};
                        App.savings := 0 |}).
Proof. repeat split; reflexivity. Qed.

(** The analysis of two priced results, the cheaper one last. *)
Lemma price_analysis_spec_witness :
  ∃ a, App.price_analysis [priced "Flipkart" (Some 150%Q);
                           priced "Amazon India" (Some 100%Q)]
       = Returned (Some a) ∧
       (App.savings a == 150 - 100)%Q.
Proof.
  destruct (price_analysis_spec [priced "Flipkart" (Some 150%Q);
                                 priced "Amazon India" (Some 100%Q)])
    as [_ Hmany].
  destruct Hmany as (a & Ha & _ & _ & _ & _ & _ & Hsavings & _); [cbn; lia|].
  exists a. split; [exact Ha|].
  injection Ha as <-. reflexivity.
Defined.

(** ** Signal fusion *)

Section Fusion.

Context (extracted_texts : list string).

Lemma yolo_step_spec (st : list Product * gset string) (detection : Detection) :
  yolo_step extracted_texts st detection =
  if Py.Qltb (3 # 10) (confidence_of detection)
     && bool_decide (label_of detection ∉ st.2)
  then (st.1 ++ [yolo_product extracted_texts detection],
        {[label_of detection]} ∪ st.2)
  else st.
Proof. by destruct st. Qed.

Lemma seen_labels_snoc (detections : list Detection) (detection : Detection) :
  seen_labels (detections ++ [detection]) =
  if Py.Qltb (3 # 10) (confidence_of detection)
  then {[label_of detection]} ∪ seen_labels detections
  else seen_labels detections.
Proof.
  unfold seen_labels. rewrite filter_app, fmap_app, list_to_set_app_L.
  destruct (Py.Qltb (3 # 10) (confidence_of detection)) eqn:E.
  - rewrite filter_cons_True by done. cbn.
    by rewrite (right_id_L ∅ (∪)), (comm_L (∪)).
  - rewrite filter_cons_False by (by rewrite E). cbn.
    by rewrite (right_id_L ∅ (∪)).
Qed.

Lemma yolo_fold_spec (detections : list Detection) :
  let st := fold_left (yolo_step extracted_texts) detections ([], ∅) in
  Forall from_yolo st.1 ∧ st.2 = seen_labels detections.
Proof.
  induction detections as [|detection detections IH] using rev_ind; [done|].
  cbn zeta in *. rewrite fold_left_app. cbn [fold_left].
  destruct IH as [Hall Hseen]. rewrite yolo_step_spec, seen_labels_snoc, Hseen.
  destruct (Py.Qltb (3 # 10) (confidence_of detection)); cbn [andb]; [|done].
  destruct (bool_decide (label_of detection ∉ seen_labels detections)) eqn:E; cbn.
  - split; [|done]. apply Forall_app. split; [done|]. by apply Forall_singleton.
  - split; [done|]. apply bool_decide_eq_false in E.
    apply dec_stable in E. rewrite Hseen. symmetry.
    apply subseteq_union_1_L, singleton_subseteq_l, E.
Qed.

Lemma yolo_fold_snoc (detections : list Detection) (detection : Detection) :
  (fold_left (yolo_step extracted_texts) (detections ++ [detection]) ([], ∅)).1 =
  (fold_left (yolo_step extracted_texts) detections ([], ∅)).1 ++
  if Py.Qltb (3 # 10) (confidence_of detection)
     && bool_decide (label_of detection ∉ seen_labels detections)
  then [yolo_product extracted_texts detection] else [].
Proof.
  rewrite fold_left_app. cbn [fold_left]. rewrite yolo_step_spec.
  destruct (yolo_fold_spec detections) as [_ ->].
  destruct (_ && _); cbn; [done | by rewrite app_nil_r].
Qed.

Lemma caption_fold_spec (products : list string) (st : list Product * gset string) :
  ∃ extra,
    (fold_left (caption_step extracted_texts) products st).1 = st.1 ++ extra ∧
    Forall (λ product, ¬ from_yolo product) extra.
Proof.
  revert st. induction products as [|product products IH]; intros [identified seen].
  - exists []. by rewrite app_nil_r.
  - cbn [fold_left]. unfold caption_step at 2.
    destruct (bool_decide (Py.lower product ∉ seen)); [|apply IH].
    destruct (IH (identified ++
                    [ {| name := enhance_product_name product extracted_texts;
                         confidence := 7 # 10;
                         category := categorize_product product;
                         detection_method := "Image Caption" |} ],
                  {[Py.lower product]} ∪ seen)) as (extra & -> & Hextra).
    eexists (_ :: extra). cbn [fst]. rewrite <- app_assoc. split; [done|].
    apply Forall_cons. split; [|done]. by unfold from_yolo.
Qed.

Lemma filter_from_yolo_all (products : list Product) :
  Forall from_yolo products → filter from_yolo products = products.
Proof.
  induction 1 as [|product products Hp _ IH]; [done|].
  by rewrite filter_cons_True, IH.
Qed.

Lemma filter_from_yolo_none (products : list Product) :
  Forall (λ product, ¬ from_yolo product) products → filter from_yolo products = [].
Proof.
  induction 1 as [|product products Hp _ IH]; [done|].
  by rewrite filter_cons_False.
Qed.

Lemma filter_from_yolo_enriched (brand_info : BrandInfo) (products : list Product) :
  filter from_yolo (with_brand_info brand_info <$> products) =
  with_brand_info brand_info <$> filter from_yolo products.
Proof.
  induction products as [|product products IH]; [done|]. cbn [fmap list_fmap].
  destruct (decide (from_yolo product)) as [Hp|Hp].
  - rewrite !filter_cons_True by done. cbn. by rewrite IH.
  - rewrite !filter_cons_False by done. by rewrite IH.
Qed.

Lemma combine_yolo_part (yolo_detections : list Detection) (caption : string) :
  filter from_yolo
    (combine_detection_results yolo_detections caption extracted_texts) =
  with_brand_info (extract_brand_info extracted_texts) <$>
    (fold_left (yolo_step extracted_texts) yolo_detections ([], ∅)).1.
Proof.
  unfold combine_detection_results. rewrite filter_from_yolo_enriched. f_equal.
  destruct (yolo_fold_spec yolo_detections) as [Hall _].
  destruct (bool_decide (caption ≠ "")); [|by apply filter_from_yolo_all].
  destruct (caption_fold_spec (extract_products_from_caption caption)
              (fold_left (yolo_step extracted_texts) yolo_detections ([], ∅)))
    as (extra & -> & Hextra).
  rewrite filter_app, filter_from_yolo_all, filter_from_yolo_none by done.
  by rewrite app_nil_r.
Qed.

Lemma yolo_fold_below (detections : list Detection) (st : list Product * gset string) :
  Forall (λ d, ¬ (3 # 10 < confidence_of d)%Q) detections →
  fold_left (yolo_step extracted_texts) detections st = st.
Proof.
  intros Hall. revert st. induction Hall as [|d detections Hd _ IH]; intros st; [done|].
  cbn [fold_left]. rewrite yolo_step_spec.
  destruct (Py.Qltb (3 # 10) (confidence_of d)) eqn:E; [|apply IH].
  by apply Qltb_true in E.
Qed.

End Fusion.

(** C6. Among the products of the fusion, those of the detector grow by one
    for a further detection exactly when its confidence is above 0.3 and its
    lower-cased label is not the one of an earlier detection above 0.3; the
    new product has the confidence of the detection.  A detection of
    confidence 0.30 adds nothing and one of confidence 0.31 is added. *)
Theorem detections_above_threshold_are_fused
    (yolo_detections : list Detection) (detection : Detection)
    (caption : string) (extracted_texts : list string) :
  let fused :=
    with_brand_info (extract_brand_info extracted_texts)
                    (yolo_product extracted_texts detection) in
  filter from_yolo
    (combine_detection_results (yolo_detections ++ [detection]) caption
       extracted_texts) =
  filter from_yolo
    (combine_detection_results yolo_detections caption extracted_texts) ++
  (if bool_decide ((3 # 10 < confidence_of detection)%Q
                   ∧ label_of detection ∉ seen_labels yolo_detections)
   then [fused] else []) ∧
  confidence fused = confidence_of detection ∧
  (∀ label, combine_detection_results [detected label (3 # 10)] caption
              extracted_texts
            = combine_detection_results [] caption extracted_texts) ∧
  (∀ label, confidence <$> filter from_yolo
              (combine_detection_results [detected label (31 # 100)] caption
                 extracted_texts)
            = [31 # 100]).
Proof.
  intros fused. split; [|split; [done|split]].
  - rewrite !combine_yolo_part, yolo_fold_snoc, fmap_app. f_equal.
    destruct (Py.Qltb (3 # 10) (confidence_of detection)) eqn:E.
    + apply Qltb_true in E.
      destruct (decide (label_of detection ∉ seen_labels yolo_detections)) as [Hl|Hl].
      * by rewrite !bool_decide_eq_true_2 by done.
      * rewrite !bool_decide_eq_false_2; [done| |done]. by intros [_ ?].
    + apply Qltb_false in E. cbn. rewrite bool_decide_eq_false_2; [done|].
      intros [Hlt _]. by apply Qlt_not_le in Hlt.
  - intros label. unfold combine_detection_results. cbn [fold_left].
    by rewrite yolo_step_spec.
  - intros label. rewrite combine_yolo_part. cbn [fold_left].
    rewrite yolo_step_spec. cbn [fst snd].
    by rewrite (bool_decide_eq_true_2 _ (not_elem_of_empty _)).
Qed.

(** C7. With no detection above 0.3, an empty caption and no recognized
    text, the fusion returns no product, the analysis returns its report
    without an error and without a search, and the summary of the report
    says that no products were detected. *)
Theorem empty_signals_yield_empty_report
    (web : Web) (signals : Signals) (w : World) :
  Forall (λ d, ¬ (3 # 10 < confidence_of d)%Q) (yolo_detections signals) →
  image_caption signals = "" →
  extracted_text signals = [] →
  combine_detection_results (yolo_detections signals) (image_caption signals)
    (extracted_text signals) = [] ∧
  generate_analysis_summary [] = "No products detected in the image." ∧
  analyze_and_identify_products web signals w =
    (Returned {| report_signals := signals;
                 identified_products := [];
                 analysis_summary := Some "No products detected in the image.";
                 report_error := None |},
     w).
Proof.
  intros Hbelow Hcaption Htexts.
  assert (Hnone : combine_detection_results (yolo_detections signals)
                    (image_caption signals) (extracted_text signals) = []).
  { unfold combine_detection_results. rewrite Hcaption.
    by rewrite yolo_fold_below. }
  split; [done|]. split; [done|].
  unfold analyze_and_identify_products. by rewrite Hnone.
Qed.

(** Two detections at and below 0.3 and nothing else: no product and no
    request. *)
Lemma empty_signals_yield_empty_report_witness :
  combine_detection_results [detected "cup" (3 # 10); detected "chair" (1 # 10)]
    "" [] = [] ∧
  (analyze_and_identify_products unreachable_web
     {| yolo_detections := [detected "cup" (3 # 10); detected "chair" (1 # 10)];
        image_caption := ""; extracted_text := [] |} world0).2 = world0.
Proof.
  destruct (empty_signals_yield_empty_report unreachable_web
              {| yolo_detections := [detected "cup" (3 # 10);
                                     detected "chair" (1 # 10)];
                 image_caption := ""; extracted_text := [] |} world0)
    as (Hfused & _ & Hreport).
  - repeat constructor; cbn; intros Hlt; discriminate Hlt.
  - reflexivity.
  - reflexivity.
  - split; [exact Hfused|]. by rewrite Hreport.
Defined.

(** ** Brand and model *)

Lemma extract_brand_info_snoc (extracted_texts : list string) (text : string) :
  extract_brand_info (extracted_texts ++ [text]) =
  brand_info_step (extract_brand_info extracted_texts) text.
Proof. unfold extract_brand_info. by rewrite fold_left_app. Qed.

(** The brand is the one of the last text that has a known brand. *)
Lemma brand_of_later_text (extracted_texts : list string) (text known : string) :
  List.find (λ known, Py.contains known (Py.lower text)) known_brands = Some known →
  brand (extract_brand_info (extracted_texts ++ [text])) = Py.title known.
Proof.
  intros Hknown. rewrite extract_brand_info_snoc. unfold brand_info_step.
  by rewrite Hknown.
Qed.

(** The model is the one of the first text that has one. *)
Lemma model_of_first_text (extracted_texts : list string) (text : string) :
  model (extract_brand_info extracted_texts) ≠ "" →
  model (extract_brand_info (extracted_texts ++ [text])) =
  model (extract_brand_info extracted_texts).
Proof.
  intros Hmodel. rewrite extract_brand_info_snoc. unfold brand_info_step. cbn.
  destruct (search_model (Py.upper text)); [|done].
  by rewrite bool_decide_eq_false_2.
Qed.

(** Every product gets the brand in front of its name and the model behind
    it, each when it is not empty. *)
Lemma combine_enriches_names (yolo_detections : list Detection)
    (caption : string) (extracted_texts : list string) :
  ∃ identified,
    combine_detection_results yolo_detections caption extracted_texts =
    with_brand_info (extract_brand_info extracted_texts) <$> identified.
Proof. unfold combine_detection_results. eauto. Qed.

Lemma with_brand_info_name (brand' model' : string) (product : Product) :
  brand' ≠ "" → model' ≠ "" →
  name (with_brand_info {| brand := brand'; model := model' |} product) =
  brand' +:+ " " +:+ name product +:+ " " +:+ model'.
Proof.
  intros Hb Hm. unfold with_brand_info. cbn.
  rewrite !bool_decide_eq_true_2 by done. clear Hb.
  induction brand' as [|c brand' IH]; [done|].
  change ((String c brand' +:+ " " +:+ name product) +:+ " " +:+ model')
    with (String c ((brand' +:+ " " +:+ name product) +:+ " " +:+ model')).
  by rewrite IH.
Qed.

(** C3: the brand of two texts that each have a known brand is the one of
    the second text, while the model is the one of the first. *)
Theorem extract_brand_info_second_brand_wins :
  extract_brand_info ["Samsung"] = {| brand := "Samsung"; model := "SAMSUNG" |} ∧
  extract_brand_info ["Samsung"; "Apple"] = {| brand := "Apple"; model := "SAMSUNG" |} ∧
  name <$> combine_detection_results [detected "cell phone" (9 # 10)] ""
             ["Samsung"; "Apple"]
    = ["Apple cell phone SAMSUNG"].
Proof. repeat split; vm_compute; reflexivity. Qed.

(** ** The quotient in double precision *)

Lemma binary64_agrees_64 : Binary64.agrees_up_to 64 = true.
Proof. vm_compute. reflexivity. Qed.

(** The literal is the double nearest to 6/10: they differ by at most half
    a unit in the last place, 2^-54. *)
Lemma binary64_literal_0_6 :
  (Z.abs (10 * 5404319552844595 - 6 * 2 ^ 53) * 2 ≤ 10)%Z.
Proof. vm_compute. discriminate. Qed.

(** The literal [0.3] is 5404319552844595 / 2^54, and 3/10 lies between it
    and the next double: a double is above the literal exactly when its
    value is above 3/10, which is how [yolo_step] compares. *)
Lemma binary64_literal_0_3 :
  (10 * 5404319552844595 < 3 * 2 ^ 54 < 10 * (5404319552844595 + 1))%Z.
Proof. split; reflexivity. Qed.

(** For a title of at most 64 words, the comparison of the loop in double
    precision is the exact one. *)
Lemma binary64_duplicate_of (later earlier : Listing) :
  size (title_words later) ≤ 64 →
  Binary64.ratio_exceeds (size (title_words later ∩ title_words earlier))
                         (max (size (title_words later)) 1)
  = duplicate_of later earlier.
Proof.
  intros Hsize.
  assert (Hsub : size (title_words later ∩ title_words earlier)
                 ≤ size (title_words later)).
  { apply subseteq_size, intersection_subseteq_l. }
  pose proof binary64_agrees_64 as Hall. unfold Binary64.agrees_up_to in Hall.
  rewrite forallb_forall in Hall.
  assert (Hrow := Hall (size (title_words later))).
  rewrite forallb_forall in Hrow.
  apply eqb_prop, Hrow; apply in_seq; lia.
Qed.

(** ** Deduplication at the threshold *)

(** Three of five words in common is not enough, four of five is, and so is
    three of three; a title without a word is kept. *)
Example remove_duplicates_examples :
  overlap_ratio (titled "A, b! c x y") (titled "a b c d e") = 3 # 5 ∧
  remove_duplicates [titled "a b c d e"; titled "A, b! c x y"]
    = Some [titled "a b c d e"; titled "A, b! c x y"] ∧
  overlap_ratio (titled "a b c d z") (titled "a b c d e") = 4 # 5 ∧
  remove_duplicates [titled "a b c d e"; titled "a b c d z"]
    = Some [titled "a b c d e"] ∧
  remove_duplicates [titled "Wireless Bluetooth Headphones Black";
                     titled "Wireless Bluetooth Headphones"]
    = Some [titled "Wireless Bluetooth Headphones Black"] ∧
  remove_duplicates [titled "Wireless Bluetooth Headphones";
                     titled "Wireless Bluetooth Headphones Black"; titled "!!!"]
    = Some [titled "Wireless Bluetooth Headphones"; titled "!!!"].
Proof. repeat split; vm_compute; reflexivity. Qed.

(** A title of punctuation between two titles with words. *)
Lemma remove_duplicates_total_keeps_wordless_witness :
  ∃ kept tail,
    remove_duplicates [titled "Phone X"] = Some kept ∧
    remove_duplicates ([titled "Phone X"] ++ titled "?!" :: [titled "Phone X 2"])
    = Some (kept ++ titled "?!" :: tail).
Proof.
  destruct (remove_duplicates_total_keeps_wordless [titled "Phone X"]
              (titled "?!") [titled "Phone X 2"]) as (_ & _ & Hkept).
  destruct Hkept as [_ Hkept]; [reflexivity | exact Hkept].
Defined.

(** * Further properties *)

(** ** The listings that deduplication keeps *)

Section Kept.

Implicit Types (product later earlier : Listing) (kept products : list Listing).

Lemma keep_unless_duplicate_sublist products kept :
  ∃ tail, fold_left keep_unless_duplicate products kept = kept ++ tail
          ∧ tail `sublist_of` products.
Proof.
  revert kept. induction products as [|p products IH]; intros kept.
  - exists []. by rewrite app_nil_r.
  - cbn [fold_left]. unfold keep_unless_duplicate at 2.
    destruct (existsb (duplicate_of p) kept).
    + destruct (IH kept) as (tail & -> & Hsub).
      exists tail. split; [done | by apply sublist_cons].
    + destruct (IH (kept ++ [p])) as (tail & -> & Hsub).
      exists (p :: tail). rewrite <- app_assoc. split; [done|].
      by apply sublist_skip.
Qed.

Lemma keep_unless_duplicate_distinct products :
  pairwise_distinct (fold_left keep_unless_duplicate products []).
Proof.
  induction products as [|p products IH] using rev_ind.
  - intros i j earlier later _ Hi. cbn in Hi. by rewrite lookup_nil in Hi.
  - rewrite fold_left_app. cbn [fold_left].
    set (kept := fold_left keep_unless_duplicate products []) in *.
    unfold keep_unless_duplicate.
    destruct (existsb (duplicate_of p) kept) eqn:Hdup; [done|].
    intros i j earlier later Hij Hi Hj.
    apply lookup_app_Some in Hj as [Hj|[Hlen Hj]].
    + apply lookup_app_Some in Hi as [Hi|[Hlen _]].
      * by apply (IH i j).
      * apply lookup_lt_Some in Hj. lia.
    + apply list_lookup_singleton_Some in Hj as [Hj <-].
      apply lookup_app_Some in Hi as [Hi|[Hlen' _]]; [|lia].
      apply duplicate_of_false. apply not_true_iff_false. intros Hd.
      apply not_true_iff_false in Hdup. apply Hdup, existsb_exists.
      exists earlier. split; [|done].
      apply list_elem_of_In, list_elem_of_lookup. eauto.
Qed.

Lemma keep_unless_duplicate_covers products :
  ∀ p, p ∈ products →
    let kept := fold_left keep_unless_duplicate products [] in
    p ∈ kept ∨ ∃ earlier, earlier ∈ kept ∧ (6 # 10 < overlap_ratio p earlier)%Q.
Proof.
  induction products as [|q products IH] using rev_ind;
    [by intros p ?%not_elem_of_nil|].
  intros p Hp. cbn zeta. rewrite fold_left_app. cbn [fold_left].
  set (kept := fold_left keep_unless_duplicate products []) in *.
  assert (Hgrow : ∀ x, x ∈ kept → x ∈ keep_unless_duplicate kept q).
  { intros x Hx. unfold keep_unless_duplicate.
    destruct (existsb (duplicate_of q) kept); [done|].
    apply elem_of_app. by left. }
  apply elem_of_app in Hp as [Hp|Hp].
  - destruct (IH p Hp) as [Hin|(earlier & Hin & Hlt)]; [left; auto|].
    right. exists earlier. auto.
  - apply list_elem_of_singleton in Hp as ->. unfold keep_unless_duplicate.
    destruct (existsb (duplicate_of q) kept) eqn:Hdup.
    + apply existsb_exists in Hdup as (earlier & Hin & Hdup).
      right. exists earlier. split; [by apply list_elem_of_In|].
      by apply duplicate_of_true.
    + left. apply elem_of_app. right. by apply list_elem_of_singleton.
Qed.

Lemma same_words_ratio later earlier :
  title_words later = title_words earlier → title_words later ≠ ∅ →
  (6 # 10 < overlap_ratio later earlier)%Q.
Proof.
  intros Hsame Hwords. unfold overlap_ratio. rewrite <- Hsame.
  rewrite (idemp_L (∩)).
  assert (Hsize : size (title_words later) ≠ 0).
  { intros Hzero. by apply size_empty_inv, leibniz_equiv in Hzero. }
  rewrite Nat.max_l by lia. unfold Qlt. cbn [Qnum Qden]. lia.
Qed.

End Kept.

(** X1. Deduplication only removes listings: what it returns is the input
    with some listings left out, in the order of the input. *)
Theorem remove_duplicates_sublist (products : list Listing) :
  ∃ kept, remove_duplicates products = Some kept ∧ kept `sublist_of` products.
Proof.
  rewrite remove_duplicates_fold.
  destruct (keep_unless_duplicate_sublist products []) as (tail & -> & Hsub).
  eauto.
Qed.

(** X2. The first listing of the input is always kept, as the first of the
    output. *)
Theorem remove_duplicates_keeps_first (first : Listing) (rest : list Listing) :
  ∃ tail, remove_duplicates (first :: rest) = Some (first :: tail).
Proof.
  rewrite remove_duplicates_fold. cbn [fold_left].
  destruct (keep_unless_duplicate_prefix rest (keep_unless_duplicate [] first))
    as [tail ->].
  by exists tail.
Qed.

(** X3. In the output no listing is similar enough to one kept before it:
    the ratio of a kept listing with every earlier kept one is at most
    0.6. *)
Theorem remove_duplicates_pairwise_distinct (products : list Listing) :
  ∃ kept, remove_duplicates products = Some kept ∧ pairwise_distinct kept.
Proof.
  rewrite remove_duplicates_fold. eexists. split; [done|].
  apply keep_unless_duplicate_distinct.
Qed.

(** X4. Nothing is lost without a representative: every listing of the
    input is in the output or has a ratio above 0.6 with a listing of the
    output. *)
Theorem remove_duplicates_covers (products : list Listing) :
  ∃ kept,
    remove_duplicates products = Some kept ∧
    ∀ product, product ∈ products →
      product ∈ kept ∨
      ∃ earlier, earlier ∈ kept ∧ (6 # 10 < overlap_ratio product earlier)%Q.
Proof.
  rewrite remove_duplicates_fold. eexists. split; [done|].
  apply keep_unless_duplicate_covers.
Qed.

(** X5. Of the listings whose titles are equal up to the case of the letters
    and have a word, at most one is kept: a second kept listing with such a
    title has no word. *)
Theorem remove_duplicates_ignores_case (products : list Listing) :
  ∃ kept,
    remove_duplicates products = Some kept ∧
    ∀ i j earlier later,
      i < j → kept !! i = Some earlier → kept !! j = Some later →
      Py.lower (title earlier) = Py.lower (title later) →
      title_words later = ∅.
Proof.
  rewrite remove_duplicates_fold. eexists. split; [done|].
  intros i j earlier later Hij Hi Hj Hcase.
  destruct (decide (title_words later = ∅)) as [|Hwords]; [done|].
  pose proof (keep_unless_duplicate_distinct products i j earlier later Hij Hi Hj)
    as Hle.
  assert (Hsame : title_words later = title_words earlier).
  { unfold title_words, normalized_title. by rewrite Hcase. }
  apply Qle_not_lt in Hle. destruct Hle. by apply same_words_ratio.
Qed.

(** X6. Deduplication decides on a listing once: the output for an input
    that goes on starts with the output for the input so far. *)
Theorem remove_duplicates_prefix (products more : list Listing) :
  ∃ kept tail,
    remove_duplicates products = Some kept ∧
    remove_duplicates (products ++ more) = Some (kept ++ tail).
Proof.
  rewrite !remove_duplicates_fold, fold_left_app.
  destruct (keep_unless_duplicate_prefix more
              (fold_left keep_unless_duplicate products [])) as [tail ->].
  eauto.
Qed.

(** ** The listings that the adapters and the search return *)

Lemma slice_to_nil {A} (n : Z) : Py.slice_to n (@nil A) = [].
Proof. unfold Py.slice_to. destruct (0 <=? n)%Z; apply take_nil. Qed.

Lemma omap_length_le {A B} (f : A → option B) (l : list A) :
  length (omap f l) ≤ length l.
Proof.
  induction l as [|x l IH]; [done|]. cbn. destruct (f x); cbn; lia.
Qed.

Section Returned_listings.

Context (web : Web) (product_name : string) (n : Z).

Lemma amazon_attempt_collect (w : World) :
  ∃ results,
    contribution (amazon_attempt web product_name n w).1 =
    collect Amazon.product_of (Py.slice_to n results).
Proof.
  unfold amazon_attempt, mbind, run_bind, requests_get.
  destruct (result (http_get web _)) as [soup|e]; cbn.
  - eauto.
  - exists []. by rewrite slice_to_nil.
Qed.

Lemma flipkart_attempt_collect (w : World) :
  ∃ results,
    contribution (flipkart_attempt web product_name n w).1 =
    collect Flipkart.product_of (Py.slice_to n results).
Proof.
  unfold flipkart_attempt, mbind, run_bind, requests_get.
  destruct (result (http_get web _)) as [soup|e]; cbn.
  - eauto.
  - exists []. by rewrite slice_to_nil.
Qed.

Lemma google_attempt_collect (w : World) :
  ∃ results,
    contribution (google_attempt web product_name n w).1 =
    collect Google.product_of (Py.slice_to n results).
Proof.
  assert (Hnone : ∃ results : list WebElement,
             [] = collect Google.product_of (Py.slice_to n results)).
  { exists []. by rewrite slice_to_nil. }
  unfold google_attempt, mbind, run_bind, setup_driver, driver_get, sleep,
    of_outcome.
  destruct (result (chrome web)) as [driver|e]; cbn; [|done].
  destruct (result (get driver _)) as [page|e]; cbn; [|done].
  destruct (find_elements page ".sh-dgr__content") as [elements|e]; cbn; [|done].
  destruct (quit driver) as [[]|e]; cbn; [eauto | done].
Qed.

Lemma collect_length {A} (product_of : A → outcome (option Listing))
    (results : list A) :
  (0 ≤ n)%Z → length (collect product_of (Py.slice_to n results)) ≤ Z.to_nat n.
Proof.
  intros Hn. unfold collect, Py.slice_to.
  rewrite (proj2 (Z.leb_le 0 n)) by lia.
  etrans; [apply omap_length_le|]. rewrite length_take. lia.
Qed.

End Returned_listings.

Lemma amazon_product_fields (item : Soup) (listing : Listing) :
  Amazon.product_of item = Returned (Some listing) →
  retailer listing = "Amazon India" ∧ title listing ≠ "N/A"
  ∧ is_Some (product_link listing).
Proof.
  unfold Amazon.product_of. destruct (Amazon.rating_of item); [|done].
  destruct (bool_decide (Amazon.title_of item ≠ "N/A")) eqn:Ht; cbn.
  - apply bool_decide_eq_true in Ht. intros [= <-]. cbn. eauto.
  - destruct (bool_decide (Amazon.image_url_of item ≠ "")); [|done].
    intros [= <-]. cbn. split; [done|]. split; [discriminate | eauto].
Qed.

Lemma flipkart_product_fields (container : Soup) (listing : Listing) :
  Flipkart.product_of container = Returned (Some listing) →
  retailer listing = "Flipkart" ∧ title listing ≠ "N/A"
  ∧ image_url listing ≠ "".
Proof.
  unfold Flipkart.product_of.
  destruct (bool_decide (Flipkart.title_of container ≠ "N/A")) eqn:Ht; [|done].
  apply bool_decide_eq_true in Ht.
  destruct (truthy (Flipkart.image_url_of container)) eqn:Hi; [|done].
  apply truthy_spec in Hi as (url & Hurl & Hne).
  intros [= <-]. cbn. by rewrite Hurl.
Qed.

Lemma google_product_fields (element : WebElement) (listing : Listing) :
  Google.product_of element = Returned (Some listing) →
  retailer listing = "Google Shopping" ∧ title listing ≠ "N/A"
  ∧ image_url listing ≠ "".
Proof.
  unfold Google.product_of.
  destruct (Google.find_or_raise element ".Xjkr3b") as [title_elem|]; [|done].
  destruct (Google.find_or_raise element ".a8Pemb"); [|done].
  destruct (Google.find_or_raise element ".ArOc1c img") as [img_elem|]; [|done].
  destruct (Google.find_or_raise element "a"); [|done].
  destruct (bool_decide (text title_elem ≠ "N/A")) eqn:Ht; [|done].
  apply bool_decide_eq_true in Ht.
  destruct (truthy (attributes img_elem !! "src")) eqn:Hi; [|done].
  apply truthy_spec in Hi as (url & Hurl & Hne).
  intros [= <-]. cbn. by rewrite Hurl.
Qed.

Lemma search_all_platforms_sublist
    (web : Web) (product_name : string) (n : Z) (w : World) :
  let amazon := amazon_attempt web product_name n w in
  let flipkart := flipkart_attempt web product_name n amazon.2 in
  let google := google_attempt web product_name n flipkart.2 in
  ∃ unique,
    search_all_platforms web product_name n w = (Returned unique, google.2) ∧
    unique `sublist_of`
      (contribution amazon.1 ++ contribution flipkart.1 ++ contribution google.1).
Proof.
  cbn zeta.
  destruct (search_all_platforms_run web product_name n w)
    as (unique & Hunique & Hrun).
  exists unique. split; [done|].
  rewrite remove_duplicates_fold in Hunique. injection Hunique as <-.
  match goal with
  | |- fold_left _ ?products [] `sublist_of` _ =>
      by destruct (keep_unless_duplicate_sublist products [])
        as (tail & -> & Hsub)
  end.
Qed.

(** X7. The search returns the listings in the order Amazon, Flipkart,
    Google Shopping, each adapter's in the order of its page: the result is
    the concatenation of the three contributions with listings left out. *)
Theorem search_all_platforms_ordered
    (web : Web) (product_name : string) (n : Z) (w : World) :
  let amazon := amazon_attempt web product_name n w in
  let flipkart := flipkart_attempt web product_name n amazon.2 in
  let google := google_attempt web product_name n flipkart.2 in
  ∃ unique,
    (search_all_platforms web product_name n w).1 = Returned unique ∧
    unique `sublist_of`
      (contribution amazon.1 ++ contribution flipkart.1 ++ contribution google.1).
Proof.
  cbn zeta.
  destruct (search_all_platforms_sublist web product_name n w)
    as (unique & -> & Hsub).
  eauto.
Qed.

(** X8. Every listing the search returns has a title other than the
    placeholder and one of the three retailers; one of Amazon has a link, one
    of Flipkart or Google Shopping has an image. *)
Theorem search_all_platforms_well_formed
    (web : Web) (product_name : string) (n : Z) (w : World) (listing : Listing) :
  listing ∈ contribution (search_all_platforms web product_name n w).1 →
  well_formed listing.
Proof.
  destruct (search_all_platforms_sublist web product_name n w)
    as (unique & -> & Hsub).
  cbn. intros Hkept. pose proof (elem_of_sublist _ _ _ Hkept Hsub) as Hin.
  unfold well_formed.
  apply elem_of_app in Hin as [Hin|Hin]; [|apply elem_of_app in Hin as [Hin|Hin]].
  - destruct (amazon_attempt_collect web product_name n w) as [results Hc].
    rewrite Hc in Hin. apply elem_of_collect in Hin as (item & _ & Hitem).
    apply amazon_product_fields in Hitem as (? & ? & ?). auto.
  - destruct (flipkart_attempt_collect web product_name n
                (amazon_attempt web product_name n w).2) as [results Hc].
    rewrite Hc in Hin. apply elem_of_collect in Hin as (item & _ & Hitem).
    apply flipkart_product_fields in Hitem as (? & ? & ?). auto.
  - destruct (google_attempt_collect web product_name n
                (flipkart_attempt web product_name n
                   (amazon_attempt web product_name n w).2).2) as [results Hc].
    rewrite Hc in Hin. apply elem_of_collect in Hin as (item & _ & Hitem).
    apply google_product_fields in Hitem as (? & ? & ?). auto.
Qed.

(** The Flipkart listing of the search with Amazon down is well formed. *)
Lemma search_all_platforms_well_formed_witness :
  well_formed
    {| title := "Wireless Bluetooth Headphones Black"; price := "N/A";
       image_url := "https://img.example/1.jpg"; product_link := Some "";
       rating := "N/A"; reviews := "N/A"; retailer := "Flipkart" |}.
Proof.
  apply (search_all_platforms_well_formed (partial_web "USB Cable")
           "wireless headphones" 3 world0).
  vm_compute. apply list_elem_of_here.
Defined.

(** X9. For a limit that is not negative no adapter returns more listings
    than the limit, and the search returns at most three times the limit. *)
Theorem search_all_platforms_bounded
    (web : Web) (product_name : string) (n : Z) (w : World) :
  (0 ≤ n)%Z →
  length (contribution (search_amazon_products web product_name n w).1)
    ≤ Z.to_nat n ∧
  length (contribution (search_flipkart_products web product_name n w).1)
    ≤ Z.to_nat n ∧
  length (contribution (search_google_shopping web product_name n w).1)
    ≤ Z.to_nat n ∧
  length (contribution (search_all_platforms web product_name n w).1)
    ≤ 3 * Z.to_nat n.
Proof.
  intros Hn.
  assert (Ha : ∀ w', length (contribution (amazon_attempt web product_name n w').1)
                     ≤ Z.to_nat n).
  { intros w'. destruct (amazon_attempt_collect web product_name n w') as [? ->].
    by apply collect_length. }
  assert (Hf : ∀ w', length (contribution (flipkart_attempt web product_name n w').1)
                     ≤ Z.to_nat n).
  { intros w'. destruct (flipkart_attempt_collect web product_name n w') as [? ->].
    by apply collect_length. }
  assert (Hg : ∀ w', length (contribution (google_attempt web product_name n w').1)
                     ≤ Z.to_nat n).
  { intros w'. destruct (google_attempt_collect web product_name n w') as [? ->].
    by apply collect_length. }
  unfold search_amazon_products, search_flipkart_products, search_google_shopping.
  rewrite !try_except_returns_contribution. cbn [fst contribution].
  split; [apply Ha|]. split; [apply Hf|]. split; [apply Hg|].
  destruct (search_all_platforms_sublist web product_name n w)
    as (unique & -> & Hsub).
  cbn [fst contribution]. apply sublist_length in Hsub.
  rewrite !length_app in Hsub.
  pose proof (Ha w).
  pose proof (Hf (amazon_attempt web product_name n w).2).
  pose proof (Hg (flipkart_attempt web product_name n
                    (amazon_attempt web product_name n w).2).2).
  lia.
Qed.

(** With a limit of one, the search with Amazon down returns at most three
    listings. *)
Lemma search_all_platforms_bounded_witness :
  length (contribution
            (search_all_platforms (partial_web "USB Cable") "wireless headphones"
               1 world0).1) ≤ 3.
Proof.
  apply (search_all_platforms_bounded (partial_web "USB Cable")
           "wireless headphones" 1 world0).
  lia.
Defined.

(** ** The addresses requested *)

Lemma all_chars_app (p : ascii → bool) (s1 s2 : string) :
  Py.all_chars p (s1 +:+ s2) = Py.all_chars p s1 && Py.all_chars p s2.
Proof.
  induction s1 as [|c s1 IH]; [done|].
  change (String c s1 +:+ s2) with (String c (s1 +:+ s2)). cbn.
  by rewrite IH, andb_assoc.
Qed.

Lemma quote_plus_char_safe (c : ascii) :
  Py.all_chars url_safe (Py.quote_plus_char c) = true.
Proof. by destruct c as [[] [] [] [] [] [] [] []]. Qed.

Lemma quote_plus_safe (s : string) :
  Py.all_chars url_safe (Py.quote_plus s) = true.
Proof.
  induction s as [|c s IH]; [done|]. cbn [Py.quote_plus].
  by rewrite all_chars_app, quote_plus_char_safe, IH.
Qed.

Lemma search_all_platforms_requests
    (web : Web) (product_name : string) (n : Z) (w : World) :
  ∃ sent_by_google,
    requests (search_all_platforms web product_name n w).2 =
      requests w ++ [ (now w, amazon_url product_name);
                      ((now w + elapsed (http_get web (amazon_url product_name)))%N,
                       flipkart_url product_name) ] ++ sent_by_google ∧
    ∀ t url, (t, url) ∈ sent_by_google → url = google_url product_name.
Proof.
  destruct (search_all_platforms_run web product_name n w) as (unique & _ & ->).
  rewrite google_attempt_world, flipkart_attempt_world, amazon_attempt_world.
  destruct w as [t0 sent_before]. cbn.
  eexists. split; [by rewrite <- !app_assoc|].
  intros t url. unfold google_requests.
  destruct (result (chrome web)); [|by intros ?%not_elem_of_nil].
  by intros [= _ ->]%list_elem_of_singleton.
Qed.

(** X10. Whatever the product name, every request the search sends goes to
    one of the three sites with a query written with letters, digits and the
    characters [_.-~+%] only: no space, [&], [#] or [/] of the name reaches
    the address. *)
Theorem search_requests_are_safe
    (web : Web) (product_name : string) (n : Z) (w : World)
    (t : N) (url : string) :
  (t, url) ∈ drop (length (requests w))
                  (requests (search_all_platforms web product_name n w).2) →
  ∃ query,
    Py.all_chars url_safe query = true ∧
    (url = "https://www.amazon.in/s?k=" +:+ query
     ∨ url = "https://www.flipkart.com/search?q=" +:+ query
     ∨ url = "https://www.google.com/search?q=" +:+ query +:+ "&tbm=shop").
Proof.
  destruct (search_all_platforms_requests web product_name n w)
    as (sent_by_google & -> & Hgoogle).
  rewrite drop_app_length. intros Hin.
  exists (Py.quote_plus product_name). split; [apply quote_plus_safe|].
  apply elem_of_cons in Hin as [[= _ ->]|Hin]; [by left|].
  apply elem_of_cons in Hin as [[= _ ->]|Hin]; [by right; left|].
  right; right. by apply (Hgoogle t).
Qed.

(** The request to Flipkart for a name with a space and an ampersand. *)
Lemma search_requests_are_safe_witness :
  ∃ query,
    Py.all_chars url_safe query = true ∧
    ("https://www.flipkart.com/search?q=phone+%26+case"
       = "https://www.amazon.in/s?k=" +:+ query
     ∨ "https://www.flipkart.com/search?q=phone+%26+case"
       = "https://www.flipkart.com/search?q=" +:+ query
     ∨ "https://www.flipkart.com/search?q=phone+%26+case"
       = "https://www.google.com/search?q=" +:+ query +:+ "&tbm=shop").
Proof.
  apply (search_requests_are_safe unreachable_web "phone & case" 3 world0 10000%N).
  vm_compute. apply list_elem_of_further, list_elem_of_here.
Defined.

(** ** Letter case *)

Lemma lower_char_idemp (c : ascii) :
  Py.lower_char (Py.lower_char c) = Py.lower_char c.
Proof. by destruct c as [[] [] [] [] [] [] [] []]. Qed.

Lemma lower_upper_char (c : ascii) :
  Py.lower_char (Py.upper_char c) = Py.lower_char c.
Proof. by destruct c as [[] [] [] [] [] [] [] []]. Qed.

Lemma lower_idemp (s : string) : Py.lower (Py.lower s) = Py.lower s.
Proof.
  induction s as [|c s IH]; [done|]. cbn. f_equal; [apply lower_char_idemp | apply IH].
Qed.

Lemma lower_upper (s : string) : Py.lower (Py.upper s) = Py.lower s.
Proof.
  induction s as [|c s IH]; [done|]. cbn. f_equal; [apply lower_upper_char | apply IH].
Qed.

(** ** The prices *)

Section Specs.

Import App.

Lemma filter_sublist {A} (f : A → bool) (l : list A) :
  List.filter f l `sublist_of` l.
Proof.
  induction l as [|x l IH]; [constructor|]. cbn.
  destruct (f x); by constructor.
Qed.

Lemma filter_idemp {A} (f : A → bool) (l : list A) :
  List.filter f (List.filter f l) = List.filter f l.
Proof.
  induction l as [|x l IH]; [done|]. cbn.
  destruct (f x) eqn:E; [|done]. cbn. by rewrite E, IH.
Qed.


Lemma py_min_permutation (xs ys : list Q) (x y : Q) :
  xs ≡ₚ ys → py_min xs = Returned x → py_min ys = Returned y → (x == y)%Q.
Proof.
  intros Hperm Hx Hy.
  destruct xs as [|x0 xs]; [done|]. destruct ys as [|y0 ys]; [done|].
  injection Hx as <-. injection Hy as <-.
  destruct (fold_min_spec xs x0) as [Hxin Hxle].
  destruct (fold_min_spec ys y0) as [Hyin Hyle].
  apply Qle_antisym.
  - apply Hxle. by rewrite Hperm.
  - apply Hyle. by rewrite <- Hperm.
Qed.

Lemma py_max_permutation (xs ys : list Q) (x y : Q) :
  xs ≡ₚ ys → py_max xs = Returned x → py_max ys = Returned y → (x == y)%Q.
Proof.
  intros Hperm Hx Hy.
  destruct xs as [|x0 xs]; [done|]. destruct ys as [|y0 ys]; [done|].
  injection Hx as <-. injection Hy as <-.
  destruct (fold_max_spec xs x0) as [Hxin Hxle].
  destruct (fold_max_spec ys y0) as [Hyin Hyle].
  apply Qle_antisym.
  - apply Hyle. by rewrite <- Hperm.
  - apply Hxle. by rewrite Hperm.
Qed.

Lemma valid_prices_permutation (data1 data2 : list PriceData) :
  data1 ≡ₚ data2 → valid_prices_of data1 ≡ₚ valid_prices_of data2.
Proof.
  unfold valid_prices_of. induction 1 as [|d l1 l2 _ IH|d1 d2 l|l1 l2 l3 _ IH1 _ IH2].
  - done.
  - cbn. destruct (price d); cbn; [by constructor | done].
  - cbn. destruct (price d1), (price d2); cbn; try done. apply perm_swap.
  - by etrans.
Qed.

End Specs.

(** X11. The prices of the analysis do not depend on the order of the
    results: the analyses of two orders of the same results have equal best
    price, range and savings (the best retailer may differ on a tie). *)
Theorem price_analysis_order (data1 data2 : list App.PriceData)
    (a1 a2 : App.Analysis) :
  data1 ≡ₚ data2 →
  App.price_analysis data1 = Returned (Some a1) →
  App.price_analysis data2 = Returned (Some a2) →
  (App.best_price a1 == App.best_price a2)%Q ∧
  (App.min (App.price_range a1) == App.min (App.price_range a2))%Q ∧
  (App.max (App.price_range a1) == App.max (App.price_range a2))%Q ∧
  (App.savings a1 == App.savings a2)%Q.
Proof.
  intros Hperm. unfold App.price_analysis.
  pose proof (valid_prices_permutation _ _ Hperm) as Hvalid.
  destruct (bool_decide _); [|done]. destruct (bool_decide _); [|done].
  destruct (App.py_min (App.valid_prices_of data1).*2) as [m1|] eqn:Hm1; [|done].
  destruct (App.py_max (App.valid_prices_of data1).*2) as [M1|] eqn:HM1; [|done].
  destruct (App.first_retailer_at m1 _); [|done].
  destruct (App.py_min (App.valid_prices_of data2).*2) as [m2|] eqn:Hm2; [|done].
  destruct (App.py_max (App.valid_prices_of data2).*2) as [M2|] eqn:HM2; [|done].
  destruct (App.first_retailer_at m2 _); [|done].
  intros [= <-] [= <-]. cbn.
  assert (Hm : (m1 == m2)%Q).
  { eapply py_min_permutation; [|done..]. by apply fmap_Permutation. }
  assert (HM : (M1 == M2)%Q).
  { eapply py_max_permutation; [|done..]. by apply fmap_Permutation. }
  repeat split; try done.
  destruct (Py.Qltb m1 M1) eqn:E1; destruct (Py.Qltb m2 M2) eqn:E2.
  - by rewrite Hm, HM.
  - apply Qltb_true in E1. apply Qltb_false in E2.
    rewrite Hm, HM in E1. by apply Qlt_not_le in E1.
  - apply Qltb_false in E1. apply Qltb_true in E2.
    rewrite <- Hm, <- HM in E2. by apply Qlt_not_le in E2.
  - reflexivity.
Qed.

(** Two orders of the results of Amazon and Flipkart. *)
Lemma price_analysis_order_witness :
  (100 == 100)%Q ∧ (100 == 100)%Q ∧ (150 == 150)%Q ∧ (150 - 100 == 150 - 100)%Q.
Proof.
  apply (price_analysis_order
           [priced "Amazon India" (Some 100%Q); priced "Flipkart" (Some 150%Q)]
           [priced "Flipkart" (Some 150%Q); priced "Amazon India" (Some 100%Q)]
           {| App.best_price := 100; App.best_retailer := "Amazon India";
              App.price_range := {| App.min := 100; App.max := 150 |};
              App.savings := 150 - 100 |}
           {| App.best_price := 100; App.best_retailer := "Amazon India";
              App.price_range := {| App.min := 100; App.max := 150 |};
              App.savings := 150 - 100 |}).
  - apply perm_swap.
  - reflexivity.
  - reflexivity.
Defined.

(** X12. [filter_by_specs] returns results of its input, in their order, and
    each has a price; filtering its output again with the same
    specifications changes nothing. *)
Theorem filter_by_specs_sublist (data_list : list App.PriceData)
    (storage color : option string) :
  filter_by_specs data_list storage color `sublist_of` data_list ∧
  Forall (λ data, is_Some (App.price data))
         (filter_by_specs data_list storage color) ∧
  filter_by_specs (filter_by_specs data_list storage color) storage color
  = filter_by_specs data_list storage color.
Proof.
  unfold filter_by_specs. split; [apply filter_sublist|].
  split; [|apply filter_idemp].
  apply Forall_forall. intros data [_ Hmatch]%list_elem_of_In%filter_In.
  unfold matches_specs in Hmatch. by destruct (App.price data).
Qed.



(** X14. When a specification is given, [api_price] answers that nothing
    matches exactly when no priced result has the specifications in its
    title; otherwise the specifications play no part: the analysis is the
    one of all priced results, those that do not match included. *)
Theorem price_reply_uses_all_results (price_data : list App.PriceData)
    (storage color : option string) :
  (filter_by_specs price_data storage color ≠ [] →
   price_reply price_data storage color = price_reply price_data None None) ∧
  (filter_by_specs price_data storage color = [] →
   truthy storage || truthy color = true →
   ∃ message, price_reply price_data storage color
              = Returned (NoMatch message price_data)).
Proof.
  unfold price_reply. split.
  - intros Hsome. cbn [truthy orb].
    destruct (truthy storage || truthy color); [|done].
    by destruct (filter_by_specs price_data storage color).
  - intros -> ->. eauto.
Qed.

(** Two phones, of which the dearer one has the storage asked for: the
    analysis still names the cheaper one. *)
Lemma price_reply_uses_all_results_witness :
  price_reply [ {| App.retailer := "Amazon India"; App.title := "Phone X 64GB";
                   App.price := Some 100%Q; App.currency := None;
                   App.error := None |};
                {| App.retailer := "Flipkart"; App.title := "Phone X 128GB";
                   App.price := Some 150%Q; App.currency := None;
                   App.error := None |} ] (Some "128gb") None
  = price_reply [ {| App.retailer := "Amazon India"; App.title := "Phone X 64GB";
                     App.price := Some 100%Q; App.currency := None;
                     App.error := None |};
                  {| App.retailer := "Flipkart"; App.title := "Phone X 128GB";
                     App.price := Some 150%Q; App.currency := None;
                     App.error := None |} ] None None.
Proof.
  apply price_reply_uses_all_results. vm_compute. discriminate.
Defined.

(** ** Categories, caption and brand *)

(** X15. The category of a name is one of the eight categories of the
    detector or [general], and it does not depend on the case of the
    letters of the name. *)
Theorem categorize_product_range (product_name : string) :
  categorize_product product_name ∈ "general" :: product_categories.*1 ∧
  categorize_product (Py.upper product_name) = categorize_product product_name ∧
  categorize_product (Py.lower product_name) = categorize_product product_name.
Proof.
  split; [|split].
  - unfold categorize_product.
    destruct (List.find _ product_categories) as [[category keywords]|] eqn:Hfind.
    + apply find_some in Hfind as [Hin _]. apply list_elem_of_further.
      apply list_elem_of_fmap. exists (category, keywords).
      split; [done | by apply list_elem_of_In].
    + apply list_elem_of_here.
  - unfold categorize_product. by rewrite lower_upper.
  - unfold categorize_product. by rewrite lower_idemp.
Qed.

Lemma elem_of_caption_keywords (caption_words : list string) (p : string) :
  p ∈ ('(_, keywords) ← product_categories;
       filter (λ keyword, keyword ∈ caption_words) keywords) ↔
  (∃ category keywords,
     (category, keywords) ∈ product_categories ∧ p ∈ keywords)
  ∧ p ∈ caption_words.
Proof.
  rewrite list_elem_of_bind. split.
  - intros ([category keywords] & Hp & Hin).
    apply list_elem_of_filter in Hp as [Hword Hp]. eauto 6.
  - intros [(category & keywords & Hin & Hp) Hword].
    exists (category, keywords). split; [|done].
    by apply list_elem_of_filter.
Qed.

(** X16. The products of a caption are the keywords of the categories that
    are words of the lower-cased caption, each once. *)
Theorem extract_products_from_caption_spec (caption : string) :
  NoDup (extract_products_from_caption caption) ∧
  ∀ p, p ∈ extract_products_from_caption caption ↔
       (∃ category keywords,
          (category, keywords) ∈ product_categories ∧ p ∈ keywords)
       ∧ p ∈ Py.split (Py.lower caption).
Proof.
  unfold extract_products_from_caption. split; [apply NoDup_elements|].
  intros p. rewrite elem_of_elements, elem_of_list_to_set.
  apply elem_of_caption_keywords.
Qed.

Lemma brand_info_step_ok (brand_info : BrandInfo) (text : string) :
  brand_info_ok brand_info → brand_info_ok (brand_info_step brand_info text).
Proof.
  intros [Hbrand Hmodel]. unfold brand_info_step, brand_info_ok.
  cbn [brand model]. split.
  - destruct (List.find (λ known, Py.contains known (Py.lower text)) known_brands)
      as [known|] eqn:Hfind; [|done].
    apply find_some in Hfind as [Hin _]. right. exists known.
    split; [by apply list_elem_of_In | done].
  - destruct (search_model (Py.upper text)) as [matched|] eqn:Hfind; [|done].
    destruct (bool_decide (model brand_info = "")); [|done].
    apply find_some in Hfind as [_ Hok].
    apply andb_true_iff in Hok as [Hok Hmax].
    apply andb_true_iff in Hok as [Hchars Hmin].
    apply bool_decide_eq_true in Hmax, Hmin. by right.
Qed.

(** X17. The brand information of any texts has no brand or one of the 23
    known brands with a capital, and no model or a model of 3 to 10 capitals
    and digits. *)
Theorem extract_brand_info_ok (extracted_texts : list string) :
  brand_info_ok (extract_brand_info extracted_texts).
Proof.
  induction extracted_texts as [|text texts IH] using rev_ind.
  - split; by left.
  - rewrite extract_brand_info_snoc. by apply brand_info_step_ok.
Qed.

(** ** The products of the fusion *)

Section Fused.

Context (extracted_texts : list string).


Lemma filter_iff_elem {A} (P Q : A → Prop) `{!∀ x, Decision (P x)}
    `{!∀ x, Decision (Q x)} (l : list A) :
  (∀ x, x ∈ l → P x ↔ Q x) → filter P l = filter Q l.
Proof.
  induction l as [|x l IH]; intros Hiff; [done|].
  assert (Hl : filter P l = filter Q l).
  { apply IH. intros y Hy. apply Hiff. by apply list_elem_of_further. }
  destruct (decide (P x)) as [HP|HP].
  - rewrite !filter_cons_True; [by rewrite Hl | | done].
    by apply Hiff; [apply list_elem_of_here|].
  - rewrite !filter_cons_False; [done | | done].
    intros HQ. apply HP. by apply Hiff; [apply list_elem_of_here|].
Qed.

Lemma caption_fold_exact (keywords : list string)
    (st : list Product * gset string) :
  NoDup keywords → Forall (λ k, Py.lower k = k) keywords →
  (fold_left (caption_step extracted_texts) keywords st).1 =
  st.1 ++ (caption_product extracted_texts
             <$> filter (λ k, k ∉ st.2) keywords).
Proof.
  intros Hnodup. revert st.
  induction Hnodup as [|k keywords Hk _ IH]; intros [identified seen] Hlower.
  - cbn. by rewrite app_nil_r.
  - apply Forall_cons in Hlower as [Hlow Hlower].
    cbn [fold_left]. unfold caption_step at 2. rewrite Hlow. cbn [fst snd].
    destruct (decide (k ∉ seen)) as [Hnew|Hold].
    + rewrite bool_decide_eq_true_2 by done. rewrite IH by done. cbn [fst snd].
      rewrite filter_cons_True by done. rewrite <- app_assoc. cbn. do 3 f_equal.
      apply filter_iff_elem. intros x Hx. split.
      * intros Hnot Hin. apply Hnot, elem_of_union. by right.
      * intros Hnot [->%elem_of_singleton|Hin]%elem_of_union; done.
    + rewrite bool_decide_eq_false_2 by done. rewrite IH by done. cbn [fst snd].
      by rewrite filter_cons_False.
Qed.

End Fused.

Lemma keywords_are_lower :
  Forall (λ k, Py.lower k = k) (product_categories ≫= snd).
Proof. apply (bool_decide_unpack _). by vm_compute. Qed.

Lemma caption_keywords_lower (caption : string) :
  Forall (λ k, Py.lower k = k) (extract_products_from_caption caption).
Proof.
  apply Forall_forall. intros k Hk. unfold extract_products_from_caption in Hk.
  apply elem_of_elements, elem_of_list_to_set, elem_of_caption_keywords in Hk
    as [(category & keywords & Hin & Hk) _].
  apply (proj1 (Forall_forall _ _) keywords_are_lower).
  apply list_elem_of_bind. by exists (category, keywords).
Qed.

Lemma combine_structure (yolo_detections : list Detection) (caption : string)
    (extracted_texts : list string) :
  combine_detection_results yolo_detections caption extracted_texts =
  with_brand_info (extract_brand_info extracted_texts) <$>
    ((fold_left (yolo_step extracted_texts) yolo_detections ([], ∅)).1
     ++ (caption_product extracted_texts
           <$> filter (λ k, k ∉ seen_labels yolo_detections)
                      (extract_products_from_caption caption))).
Proof.
  unfold combine_detection_results. f_equal.
  destruct (yolo_fold_spec extracted_texts yolo_detections) as [_ Hseen].
  destruct (decide (caption = "")) as [->|Hcaption].
  - cbn. by rewrite app_nil_r.
  - rewrite bool_decide_eq_true_2 by done.
    rewrite caption_fold_exact, Hseen; [done | | apply caption_keywords_lower].
    unfold extract_products_from_caption. apply NoDup_elements.
Qed.


(** X19. The caption adds a product for each of its keywords that is not
    the label of a detection above 0.3, and for no other: what the detector
    has seen is not added again. *)
Theorem caption_adds_unseen_keywords (yolo_detections : list Detection)
    (caption : string) (extracted_texts : list string) :
  filter (λ p, ¬ from_yolo p)
    (combine_detection_results yolo_detections caption extracted_texts) =
  with_brand_info (extract_brand_info extracted_texts) <$>
    (caption_product extracted_texts
       <$> filter (λ k, k ∉ seen_labels yolo_detections)
                  (extract_products_from_caption caption)).
Proof.
  rewrite combine_structure, fmap_app, filter_app.
  destruct (yolo_fold_spec extracted_texts yolo_detections) as [Hall _].
  assert (Hnone : filter (λ p, ¬ from_yolo p)
                    (with_brand_info (extract_brand_info extracted_texts) <$>
                       (fold_left (yolo_step extracted_texts) yolo_detections
                          ([], ∅)).1) = []).
  { induction Hall as [|p l Hp _ IH]; [done|]. cbn [fmap list_fmap].
    rewrite filter_cons_False; [done|]. intros Hnot. by apply Hnot. }
  rewrite Hnone. cbn [app].
  induction (filter _ (extract_products_from_caption caption)) as [|k ks IH];
    [done|].
  cbn [fmap list_fmap]. rewrite filter_cons_True; [|by unfold from_yolo].
  f_equal. apply IH.
Qed.

(** ** The analysis of an image and the upload *)

Lemma search_all_platforms_returns
    (web : Web) (product_name : string) (n : Z) (w : World) :
  ∃ found w', search_all_platforms web product_name n w = (Returned found, w').
Proof.
  destruct (search_all_platforms_run web product_name n w) as (unique & _ & ->).
  eauto.
Qed.

Lemma search_each_returns (web : Web) (identified : list Product) (w : World) :
  ∃ entries w',
    search_each web identified w = (Returned entries, w') ∧
    detected_name <$> entries = name <$> identified ∧
    result_confidence <$> entries = confidence <$> identified ∧
    Forall (λ entry, total_found entry = length (search_results entry)) entries.
Proof.
  revert w. induction identified as [|product rest IH]; intros w.
  - exists [], w. by repeat split.
  - cbn [search_each]. unfold mbind, run_bind.
    destruct (search_all_platforms_returns web (name product) 2 w)
      as (found & w1 & ->).
    destruct (IH w1) as (entries & w2 & -> & Hnames & Hconf & Hall).
    eexists _, w2. split; [done|]. cbn. rewrite Hnames, Hconf.
    repeat split. by apply Forall_cons.
Qed.

(** X20. The analysis of an image never takes its error branch: whatever
    the web does, the report has no error, a summary, and one entry for each
    product of the fusion, in order, with the name and the confidence of the
    product and with the count of its search results. *)
Theorem analyze_and_identify_products_succeeds
    (web : Web) (signals : Signals) (w : World) :
  ∃ entries w',
    analyze_and_identify_products web signals w =
      (Returned {| report_signals := signals;
                   identified_products := entries;
                   analysis_summary := Some (generate_analysis_summary entries);
                   report_error := None |}, w') ∧
    detected_name <$> entries =
      name <$> combine_detection_results (yolo_detections signals)
                 (image_caption signals) (extracted_text signals) ∧
    result_confidence <$> entries =
      confidence <$> combine_detection_results (yolo_detections signals)
                       (image_caption signals) (extracted_text signals) ∧
    Forall (λ entry, total_found entry = length (search_results entry)) entries.
Proof.
  unfold analyze_and_identify_products, try_except, mbind, run_bind.
  destruct (search_each_returns web
              (combine_detection_results (yolo_detections signals)
                 (image_caption signals) (extracted_text signals)) w)
    as (entries & w' & -> & Hnames & Hconf & Hall).
  by exists entries, w'.
Qed.

(** X21. An upload never fails either: with a query the answer is the
    search for the query, with the count of what it found, and the image is
    not looked at; without one it is the report of the analysis, which has no
    error. *)
Theorem search_uploaded_image_succeeds
    (web : Web) (signals : Signals) (search_query : option string) (w : World) :
  match search_query with
  | Some query =>
      if bool_decide (query = "") then
        ∃ report w',
          search_uploaded_image web signals search_query w
            = (Returned (Analysed report), w') ∧ report_error report = None
      else
        ∃ found summary,
          search_uploaded_image web signals search_query w
            = (Returned (DirectSearch query found (length found) summary),
               (search_all_platforms web query 3 w).2) ∧
          (search_all_platforms web query 3 w).1 = Returned found
  | None =>
      ∃ report w',
        search_uploaded_image web signals search_query w
          = (Returned (Analysed report), w') ∧ report_error report = None
  end.
Proof.
  assert (Hanalysed : ∃ report w',
            try_except
              (report ← analyze_and_identify_products web signals;
               mret (Analysed report))
              (λ e, mret (Failed e)) w
            = (Returned (Analysed report), w') ∧ report_error report = None).
  { unfold try_except, mbind, run_bind.
    unfold analyze_and_identify_products, try_except, mbind, run_bind.
    destruct (search_each_returns web
                (combine_detection_results (yolo_detections signals)
                   (image_caption signals) (extracted_text signals)) w)
      as (entries & w' & -> & _).
    by eexists _, w'. }
  unfold search_uploaded_image.
  destruct search_query as [query|]; [|exact Hanalysed].
  cbn [truthy from_option]. unfold id.
  destruct (decide (query = "")) as [->|Hquery].
  - exact Hanalysed.
  - rewrite bool_decide_eq_false_2 by done.
    rewrite (bool_decide_eq_true_2 (query ≠ "")) by done.
    unfold try_except, mbind, run_bind.
    destruct (search_all_platforms_returns web query 3 w) as (found & w1 & ->).
    exists found. eexists. split; reflexivity.
Qed.

(** ** The details of a product page *)

Lemma add_image_fold (imgs : list Tag) (images : list string) :
  NoDup images → ("" ∉ images) →
  let result := fold_left add_image imgs images in
  NoDup result ∧ ("" ∉ result) ∧ length result ≤ length images + length imgs ∧
  ∀ img_url, img_url ∈ result →
    img_url ∈ images ∨ ∃ img, img ∈ imgs ∧ attrs img !! "src" = Some img_url.
Proof.
  revert images. induction imgs as [|img imgs IH]; intros images Hnodup Hempty.
  - cbn. repeat split; [done..|lia|auto].
  - cbn [fold_left].
    assert (Hstep : NoDup (add_image images img) ∧ ("" ∉ add_image images img)
                    ∧ length (add_image images img) ≤ S (length images)
                    ∧ ∀ img_url, img_url ∈ add_image images img →
                        img_url ∈ images ∨ attrs img !! "src" = Some img_url).
    { unfold add_image. destruct (attrs img !! "src") as [img_url|];
        [|repeat split; auto].
      destruct (bool_decide (img_url ≠ "")) eqn:Hne; cbn [andb];
        [|repeat split; auto].
      destruct (bool_decide (img_url ∉ images)) eqn:Hnew;
        [|repeat split; auto].
      apply bool_decide_eq_true in Hne, Hnew. repeat split.
      - apply NoDup_app. repeat split; [done| |apply NoDup_singleton].
        intros x Hx ->%list_elem_of_singleton. done.
      - intros [Hin|Hin%list_elem_of_singleton]%elem_of_app; [done|].
        by apply Hne.
      - rewrite length_app. cbn. lia.
      - intros x [Hin| ->%list_elem_of_singleton]%elem_of_app; auto. }
    destruct Hstep as (Hnodup' & Hempty' & Hlen' & Hfrom').
    destruct (IH _ Hnodup' Hempty') as (Hn & He & Hl & Hf).
    cbn zeta. repeat split; [done..| cbn; lia |].
    intros img_url Hin. destruct (Hf img_url Hin) as [Hold|(img' & Hin' & Hsrc)].
    + destruct (Hfrom' img_url Hold) as [?|Hsrc]; [by left|].
      right. exists img. split; [apply list_elem_of_here | done].
    + right. exists img'. split; [by apply list_elem_of_further | done].
Qed.

(** X22. The details of a product page have at most five additional images,
    each a non-empty address of one of the first five images of the page
    and none twice; a page of another site than Amazon has none, and the
    details are missing exactly when the request raised. *)
Theorem get_product_details_images (fetched : outcome Document) (url : string) :
  match get_product_details_from_url fetched url with
  | Some details =>
      (∃ soup, fetched = Returned soup ∧
         ∀ img_url, img_url ∈ additional_images details →
           ∃ img, img ∈ take 5 (doc_find_all soup "img" "a-dynamic-image")
                  ∧ attrs img !! "src" = Some img_url) ∧
      NoDup (additional_images details) ∧
      ("" ∉ additional_images details) ∧
      length (additional_images details) ≤ 5 ∧
      (Py.contains "amazon" url = false → additional_images details = []) ∧
      specifications details = ∅
  | None => ∃ e, fetched = Raised e
  end.
Proof.
  unfold get_product_details_from_url.
  destruct fetched as [soup|e]; [|eauto].
  destruct (Py.contains "amazon" url) eqn:Hamazon.
  - cbn [additional_images specifications].
    change (Py.slice_to 5 ?l) with (take 5 l).
    destruct (add_image_fold (take 5 (doc_find_all soup "img" "a-dynamic-image"))
                [] (NoDup_nil_2) (not_elem_of_nil _)) as (Hn & He & Hl & Hf).
    cbn zeta in *. repeat split; try done.
    + exists soup. split; [done|]. intros img_url Hin.
      destruct (Hf img_url Hin) as [?%not_elem_of_nil|?]; done.
    + etrans; [exact Hl|]. cbn. rewrite length_take. lia.
  - destruct (Py.contains "flipkart" url);
      cbn [additional_images specifications];
      (split; [exists soup; split; [done|]; by intros ? ?%not_elem_of_nil|]);
      repeat split; try done;
      [apply NoDup_nil_2 | apply not_elem_of_nil | cbn; lia
      |apply NoDup_nil_2 | apply not_elem_of_nil | cbn; lia].
Qed.

(** ** One product for a label, and the lists deduplication leaves alone *)

Lemma yolo_fold_count (extracted_texts : list string) (detections : list Detection) :
  let st := fold_left (yolo_step extracted_texts) detections ([], ∅) in
  length st.1 = size st.2.
Proof.
  induction detections as [|detection detections IH] using rev_ind; [done|].
  cbn zeta in *. rewrite fold_left_app. cbn [fold_left]. rewrite yolo_step_spec.
  destruct (Py.Qltb (3 # 10) (confidence_of detection)); cbn [andb]; [|done].
  destruct (decide (label_of detection
                    ∉ (fold_left (yolo_step extracted_texts) detections ([], ∅)).2))
    as [Hnew|Hold].
  - rewrite bool_decide_eq_true_2 by done. cbn [fst snd].
    rewrite length_app, size_union, size_singleton
      by by apply disjoint_singleton_l.
    cbn. lia.
  - by rewrite bool_decide_eq_false_2.
Qed.

(** X23. The detector contributes one product for each distinct lower-cased
    label among the detections above 0.3, however often the label is
    detected. *)
Theorem one_product_per_label (yolo_detections : list Detection)
    (caption : string) (extracted_texts : list string) :
  length (filter from_yolo
            (combine_detection_results yolo_detections caption extracted_texts))
  = size (seen_labels yolo_detections).
Proof.
  rewrite combine_yolo_part, length_fmap.
  destruct (yolo_fold_spec extracted_texts yolo_detections) as [_ <-].
  apply yolo_fold_count.
Qed.

Lemma pairwise_distinct_fold (products : list Listing) :
  pairwise_distinct products →
  fold_left keep_unless_duplicate products [] = products.
Proof.
  induction products as [|p products IH] using rev_ind; [done|].
  intros Hdistinct. rewrite fold_left_app. cbn [fold_left].
  rewrite IH.
  - unfold keep_unless_duplicate.
    destruct (existsb (duplicate_of p) products) eqn:Hdup; [|done].
    apply existsb_exists in Hdup as (earlier & Hin & Hdup).
    apply list_elem_of_In, list_elem_of_lookup in Hin as [i Hi].
    apply duplicate_of_true, Qlt_not_le in Hdup. destruct Hdup.
    apply (Hdistinct i (length products)).
    + by apply lookup_lt_Some in Hi.
    + by apply lookup_app_l_Some.
    + by rewrite list_lookup_middle.
  - intros i j earlier later Hij Hi Hj. apply (Hdistinct i j); [done|..];
      by apply lookup_app_l_Some.
Qed.

(** X24. Deduplication leaves a list as it is exactly when no listing of the
    list has a ratio above 0.6 with one before it; so listings without a
    common word are never merged. *)
Theorem remove_duplicates_fixed_points (products : list Listing) :
  remove_duplicates products = Some products ↔ pairwise_distinct products.
Proof.
  rewrite remove_duplicates_fold. split.
  - intros [= Heq]. rewrite <- Heq. apply keep_unless_duplicate_distinct.
  - intros Hdistinct. by rewrite pairwise_distinct_fold.
Qed.

(** ** Instances *)

(** Two kept titles that share three of five words. *)
Lemma remove_duplicates_pairwise_distinct_witness :
  (overlap_ratio (titled "A, b! c x y") (titled "a b c d e") <= 6 # 10)%Q.
Proof.
  destruct (remove_duplicates_pairwise_distinct
              [titled "a b c d e"; titled "A, b! c x y"])
    as (kept & Hkept & Hdistinct).
  vm_compute in Hkept. injection Hkept as <-.
  by apply (Hdistinct 0 1); [lia|..].
Defined.

(** A title dropped for one that is kept. *)
Lemma remove_duplicates_covers_witness :
  ∃ kept,
    remove_duplicates [titled "a b c d e"; titled "a b c d z"] = Some kept ∧
    (titled "a b c d z" ∈ kept ∨
     ∃ earlier, earlier ∈ kept
                ∧ (6 # 10 < overlap_ratio (titled "a b c d z") earlier)%Q).
Proof.
  destruct (remove_duplicates_covers [titled "a b c d e"; titled "a b c d z"])
    as (kept & Hkept & Hcovers).
  exists kept. split; [exact Hkept|].
  apply Hcovers. apply list_elem_of_further, list_elem_of_here.
Defined.

(** Two kept titles of punctuation that are equal: the second has no
    word. *)
Lemma remove_duplicates_ignores_case_witness :
  title_words (titled "?!") = ∅.
Proof.
  destruct (remove_duplicates_ignores_case [titled "?!"; titled "?!"])
    as (kept & Hkept & Hcase).
  vm_compute in Hkept. injection Hkept as <-.
  by apply (Hcase 0 1 (titled "?!") (titled "?!")); [lia|..].
Defined.
